(** * Btfzip: angle-indexed access to the images of a zip archive

    A shallow embedding of [btf_helper/btfzip.py] and the properties of its
    filename parser, index construction and lookup.

    Python values are modelled as follows.
    - [str]: [string]; a character is a code point below 256.
    - [float]: the primitive binary64 [float]; [float(s)] is [PyFloat.float_of_str].
      The parser returns values.  A dict compares a key with [is] before
      [==], which matters for a NaN, equal to no float but found again as the
      very object a key holds.  The floats of the keys are made by [float] at
      construction, one new object per key and component; an argument of a
      lookup is an integer, a float object of the caller's, or one of these
      objects, named by its place in the index ([PyKeyFloat]).
    - exceptions: the [exn] type, results in the [result] monad.
    - [set], [dict], [Counter]: lists with the equality Python uses for keys.
    - the zip archive: [ZipFile], a list of named byte strings together with
      the number of streams currently open on it.
    - [cv2]: the [Cv2] class, an interface the development is parametric in. *)

From Stdlib Require Import String Ascii List ZArith Lia Bool Arith.
From Stdlib Require Import Floats Permutation.
From Stdlib.Strings Require Import Byte.
Import ListNotations.

Local Open Scope string_scope.
Local Open Scope list_scope.

(** ** Builtin operations of [str] *)

Module PyStr.

(** [s[n:]] *)
Fixpoint slice_from (n : nat) (s : string) : string :=
  match n, s with
  | O, _ => s
  | S _, EmptyString => EmptyString
  | S n', String _ s' => slice_from n' s'
  end.

(** [s[:n]] for a non-negative [n] *)
Fixpoint slice_to (n : nat) (s : string) : string :=
  match n, s with
  | O, _ => EmptyString
  | S _, EmptyString => EmptyString
  | S n', String c s' => String c (slice_to n' s')
  end.

(** [s[:-n]] for a positive [n]: all but the last [n] characters, and the
    empty string when [s] has at most [n] characters. *)
Definition slice_to_neg (n : nat) (s : string) : string :=
  slice_to (String.length s - n) s.

(** [s.endswith(suffix)] *)
Definition endswith (s suffix : string) : bool :=
  (String.length suffix <=? String.length s)%nat
  && String.eqb (slice_from (String.length s - String.length suffix) s) suffix.

(** The scan of [s.split(sep)] for a non-empty [sep]: separators are matched
    leftmost first and do not overlap. [skip] counts the characters of a
    matched separator still to be passed over, [cur] is the token read so
    far. *)
Fixpoint split_scan (sep : string) (skip : nat) (cur s : string) : list string :=
  match s with
  | EmptyString => [cur]
  | String c rest =>
      match skip with
      | S k => split_scan sep k cur rest
      | O =>
          if String.prefix sep s
          then cur :: split_scan sep (String.length sep - 1) EmptyString rest
          else split_scan sep 0 (cur ++ String c EmptyString) rest
      end
  end.

(** [s.split(sep)]; [None] stands for the [ValueError] ("empty separator")
    that Python raises when [sep] is empty. *)
Definition split (s sep : string) : option (list string) :=
  match sep with
  | EmptyString => None
  | _ => Some (split_scan sep 0 EmptyString s)
  end.

(** [c in s] for a single character *)
Fixpoint has_char (c : ascii) (s : string) : bool :=
  match s with
  | EmptyString => false
  | String x s' => Ascii.eqb x c || has_char c s'
  end.

End PyStr.

(** ** The builtin [float(s)] on strings *)

Module PyFloat.

Definition code (c : ascii) : nat := nat_of_ascii c.

(** Whitespace that [float] strips at both ends: tab, line feed, vertical
    tab, form feed, carriage return, space, and in the Latin-1 range next
    line (0x85) and no-break space (0xA0). *)
Definition is_space (c : ascii) : bool :=
  let n := code c in
  ((9 <=? n) && (n <=? 13) || (n =? 32) || (n =? 133) || (n =? 160))%nat.

Definition is_digit (c : ascii) : bool :=
  let n := code c in ((48 <=? n) && (n <=? 57))%nat.

Definition digit_val (c : ascii) : Z := Z.of_nat (code c - 48).

Fixpoint lstrip (l : list ascii) : list ascii :=
  match l with
  | c :: l' => if is_space c then lstrip l' else l
  | [] => []
  end.

Definition strip (l : list ascii) : list ascii := rev (lstrip (rev (lstrip l))).

(** Underscores: each one must stand between two digits; they are removed
    before the number is read. [prev] is the previous character. *)
Fixpoint drop_underscores (prev : option ascii) (l : list ascii) : option (list ascii) :=
  match l with
  | [] =>
      match prev with
      | Some "_"%char => None
      | _ => Some []
      end
  | c :: l' =>
      if Ascii.eqb c "_" then
        match prev with
        | Some p => if is_digit p then drop_underscores (Some c) l' else None
        | None => None
        end
      else
        match prev with
        | Some "_"%char =>
            if is_digit c then option_map (cons c) (drop_underscores (Some c) l') else None
        | _ => option_map (cons c) (drop_underscores (Some c) l')
        end
  end.

(** ASCII lower case, for the case-insensitive words [inf], [infinity], [nan] *)
Definition lower (c : ascii) : ascii :=
  let n := code c in
  if ((65 <=? n) && (n <=? 90))%nat then ascii_of_nat (n + 32) else c.

Definition is_word (w : string) (l : list ascii) : bool :=
  String.eqb (string_of_list_ascii (map lower l)) w.

(** An optional sign: [true] for a minus. *)
Definition read_sign (l : list ascii) : bool * list ascii :=
  match l with
  | "-"%char :: l' => (true, l')
  | "+"%char :: l' => (false, l')
  | _ => (false, l)
  end.

(** The longest run of digits at the head of [l], as a number together with
    the count of digits read. *)
Fixpoint read_digits (acc : Z) (n : nat) (l : list ascii) : Z * nat * list ascii :=
  match l with
  | c :: l' =>
      if is_digit c then read_digits (10 * acc + digit_val c) (S n) l' else (acc, n, l)
  | [] => (acc, n, [])
  end.

(** [m * 10^e], rounded to the nearest binary64 value, ties to even.  For a
    negative [e] the quotient is computed with 66 bits and more, and a
    sticky bit records a remainder that is not zero. *)
Definition of_decimal (neg : bool) (m e : Z) : float :=
  match m with
  | Zpos _ =>
      if (0 <=? e)%Z then
        SF2Prim (binary_normalize prec emax (if neg then - (m * 10 ^ e) else m * 10 ^ e) 0 false)
      else
        let d := (10 ^ (- e))%Z in
        let s := (Z.log2 d + 66)%Z in
        let n := (m * 2 ^ s)%Z in
        let q := (n / d)%Z in
        let sticky := if (n mod d =? 0)%Z then 0%Z else 1%Z in
        let m' := (2 * q + sticky)%Z in
        SF2Prim (binary_normalize prec emax (if neg then - m' else m') (- s - 1) false)
  | _ => if neg then neg_zero else zero
  end.

(** A decimal number: digits with an optional point, at least one digit in
    all, and an optional exponent [e] or [E] with an optional sign and at
    least one digit.  The whole input must be consumed. *)
Definition read_decimal (neg : bool) (l : list ascii) : option float :=
  let '(ip, ni, l1) := read_digits 0 0 l in
  let '(m, nf, l2) :=
    match l1 with
    | "."%char :: l1' => let '(m, nf, l2) := read_digits ip 0 l1' in (m, nf, l2)
    | _ => (ip, O, l1)
    end in
  if (ni + nf =? 0)%nat then None
  else
    match l2 with
    | [] => Some (of_decimal neg m (- Z.of_nat nf))
    | c :: l3 =>
        if Ascii.eqb (lower c) "e" then
          let '(eneg, l4) := read_sign l3 in
          let '(ex, ne, l5) := read_digits 0 0 l4 in
          match ne, l5 with
          | S _, [] => Some (of_decimal neg m ((if eneg then - ex else ex) - Z.of_nat nf))
          | _, _ => None
          end
        else None
    end.

(** [float(s)]: [None] stands for the [ValueError] Python raises. *)
Definition float_of_str (s : string) : option float :=
  match drop_underscores None (strip (list_ascii_of_string s)) with
  | None => None
  | Some l =>
      let '(neg, body) := read_sign l in
      if is_word "inf" body || is_word "infinity" body
      then Some (if neg then neg_infinity else infinity)
      else if is_word "nan" body then Some nan
      else read_decimal neg body
  end.

End PyFloat.

(** ** Numbers and angle tuples *)

(** [AnglesTuple = Tuple[float, float, float, float]] *)
Definition AnglesTuple : Type := float * float * float * float.

(** An argument of [angles_to_image]: annotated [int], and a [float] when a
    member of [angles_set] is passed back.  [PyFloat f] is a float object of
    value [f] that the index does not hold.  [PyKeyFloat j i f] is the float
    object of value [f] that the key number [j] of the index holds at
    component [i] (0 to 3), as a caller gets it from the member number [j] of
    [angles_set]; when the index holds another value at that place, it is a
    float object of value [f] like any other. *)
Inductive num : Type :=
| PyInt (z : Z)
| PyFloat (f : float)
| PyKeyFloat (j i : nat) (f : float).

Definition Key : Type := num * num * num * num.

(** [int == float] compares the exact values. *)
Definition int_eq_float (z : Z) (f : float) : bool :=
  match Prim2SF f with
  | S754_zero _ => (z =? 0)%Z
  | S754_finite s m e =>
      let v := if s then Zneg m else Zpos m in
      if (0 <=? e)%Z then (z =? v * 2 ^ e)%Z
      else (v mod 2 ^ (- e) =? 0)%Z && (z =? v / 2 ^ (- e))%Z
  | _ => false
  end.

(** [f == x] for a stored float [f] and a number [x] *)
Definition num_eqb (f : float) (x : num) : bool :=
  match x with
  | PyInt z => int_eq_float z f
  | PyFloat g => PrimFloat.eqb f g
  | PyKeyFloat _ _ g => PrimFloat.eqb f g
  end.

(** Equality of tuples is equality of the components, in order. *)
Definition tuple_eqb (a b : AnglesTuple) : bool :=
  let '(a1, a2, a3, a4) := a in
  let '(b1, b2, b3, b4) := b in
  PrimFloat.eqb a1 b1 && PrimFloat.eqb a2 b2 && PrimFloat.eqb a3 b3 && PrimFloat.eqb a4 b4.

(** [a == k] for a stored tuple and a key, by the values of their items *)
Definition key_eqb (a : AnglesTuple) (k : Key) : bool :=
  let '(a1, a2, a3, a4) := a in
  let '(k1, k2, k3, k4) := k in
  num_eqb a1 k1 && num_eqb a2 k2 && num_eqb a3 k3 && num_eqb a4 k4.

(** [g is x], for the float [g] that the key number [j] holds at component
    [i]: [x] is that very object. *)
Definition is_object (j i : nat) (g : float) (x : num) : bool :=
  match x with
  | PyKeyFloat j' i' f => (j' =? j)%nat && (i' =? i)%nat && PrimFloat.Leibniz.eqb g f
  | _ => false
  end.

(** The comparison of two items of tuples: [g is x or g == x] *)
Definition item_match (j i : nat) (g : float) (x : num) : bool :=
  is_object j i g x || num_eqb g x.

(** The comparison a dict makes between its key number [j] and the key
    looked up: item by item, since the tuple looked up is a new object. *)
Definition key_match (j : nat) (a : AnglesTuple) (k : Key) : bool :=
  let '(a1, a2, a3, a4) := a in
  let '(k1, k2, k3, k4) := k in
  item_match j 0 a1 k1 && item_match j 1 a2 k2 && item_match j 2 a3 k3 && item_match j 3 a4 k4.

(** ** Exceptions *)

Inductive exn_class : Type := ValueError | IndexError | TypeError | RuntimeError | KeyError | Cv2Error.

Inductive exn : Type :=
| FloatConversion (s : string)
    (** [ValueError]: could not convert string to float *)
| EmptySeparator
    (** [ValueError] of [str.split] *)
| InvalidAngle (angles : list string) (cause : exn)
    (** [ValueError("invalid angle:", angles) from cause] *)
| ConditionNotExist (key : Key) (zip_filepath : string)
    (** [ValueError]: the condition does not exist in the archive *)
| ListIndexOutOfRange
    (** [IndexError] *)
| MissingArgument (name : string)
    (** [TypeError]: a required positional argument is missing *)
| TooManyArguments
    (** [TypeError] *)
| DuplicatedConditions (zip_filepath : string)
    (** [RuntimeError]: the archive has duplicated conditions *)
| NoSuchItem (name : string)
    (** [KeyError] of [ZipFile.open] *)
| CodecError (msg : string)
    (** an error raised by [cv2] *).

Definition class_of (e : exn) : exn_class :=
  match e with
  | FloatConversion _ | EmptySeparator | InvalidAngle _ _ | ConditionNotExist _ _ => ValueError
  | ListIndexOutOfRange => IndexError
  | MissingArgument _ | TooManyArguments => TypeError
  | DuplicatedConditions _ => RuntimeError
  | NoSuchItem _ => KeyError
  | CodecError _ => Cv2Error
  end.

Definition is_ValueError (e : exn) : bool :=
  match class_of e with ValueError => true | _ => false end.

Inductive result (A : Type) : Type :=
| Return (a : A)
| Raise (e : exn).
Arguments Return {A} a.
Arguments Raise {A} e.

Definition bind {A B : Type} (r : result A) (k : A -> result B) : result B :=
  match r with
  | Return a => k a
  | Raise e => Raise e
  end.

Declare Scope py_scope.
Delimit Scope py_scope with py.
Notation "x <- r ;; k" := (bind r (fun x => k))
  (at level 61, r at next level, right associativity) : py_scope.
Local Open Scope py_scope.

(** [try: body except ValueError as e: handler e] *)
Definition try_except_ValueError {A : Type} (body : result A) (handler : exn -> result A)
  : result A :=
  match body with
  | Raise e => if is_ValueError e then handler e else Raise e
  | Return a => Return a
  end.

(** [l[i]] for a non-negative [i] *)
Definition getitem {A : Type} (l : list A) (i : nat) : result A :=
  match nth_error l i with
  | Some a => Return a
  | None => Raise ListIndexOutOfRange
  end.

(** [l[-1]] *)
Definition getitem_last {A : Type} (l : list A) : result A :=
  match rev l with
  | a :: _ => Return a
  | [] => Raise ListIndexOutOfRange
  end.

Definition str_split (s sep : string) : result (list string) :=
  match PyStr.split s sep with
  | Some l => Return l
  | None => Raise EmptySeparator
  end.

(** [float(s)] *)
Definition py_float (s : string) : result float :=
  match PyFloat.float_of_str s with
  | Some f => Return f
  | None => Raise (FloatConversion s)
  end.

(** ** The filename parser *)

(** The tokens of a filename:
    [angles = filename.split("/")[-1][:-4].split(sep)] *)
Definition split_angles (filename sep : string) : result (list string) :=
  segments <- str_split filename "/" ;;
  segment <- getitem_last segments ;;
  str_split (PyStr.slice_to_neg 4 segment) sep.

(** [Btfzip._filename_to_angles(filename, sep)] *)
Definition _filename_to_angles (filename sep : string) : result AnglesTuple :=
  angles <- split_angles filename sep ;;
  try_except_ValueError
    (tl <- (a <- getitem angles 0 ;; py_float (PyStr.slice_from 2 a)) ;;
     pl <- (a <- getitem angles 1 ;; py_float (PyStr.slice_from 2 a)) ;;
     tv <- (a <- getitem angles 2 ;; py_float (PyStr.slice_from 2 a)) ;;
     pv <- (a <- getitem angles 3 ;; py_float (PyStr.slice_from 2 a)) ;;
     Return (tl, pl, tv, pv))
    (fun e => Raise (InvalidAngle angles e)).

(** A call of the static method with positional arguments: both parameters
    are required. *)
Definition call_filename_to_angles (args : list string) : result AnglesTuple :=
  match args with
  | [] => Raise (MissingArgument "filename")
  | [_] => Raise (MissingArgument "sep")
  | [filename; sep] => _filename_to_angles filename sep
  | _ => Raise TooManyArguments
  end.

(** ** Containers *)

(** The dict from angle tuples to file paths, in insertion order.  The keys
    put in by the parser are new objects, compared with [==]; a key looked up
    is compared with [key_match]. *)
Definition dict : Type := list (AnglesTuple * string).

(** [d[k] = v]: an equal key keeps its place and takes the new value. *)
Fixpoint dict_setitem (d : dict) (k : AnglesTuple) (v : string) : dict :=
  match d with
  | [] => [(k, v)]
  | (k', v') :: d' =>
      if tuple_eqb k' k then (k', v) :: d' else (k', v') :: dict_setitem d' k v
  end.

(** [d.get(key)], from the key number [j] on *)
Fixpoint dict_get_from (j : nat) (d : dict) (key : Key) : option string :=
  match d with
  | [] => None
  | (k', v') :: d' => if key_match j k' key then Some v' else dict_get_from (S j) d' key
  end.

(** [d.get(key)] *)
Definition dict_get (d : dict) (key : Key) : option string := dict_get_from 0 d key.

Definition dict_keys (d : dict) : list AnglesTuple := map fst d.

(** [frozenset(l)]: the members in the order of their first occurrence. *)
Fixpoint set_add (s : list AnglesTuple) (k : AnglesTuple) : list AnglesTuple :=
  match s with
  | [] => [k]
  | k' :: s' => if tuple_eqb k' k then s else k' :: set_add s' k
  end.

Definition frozenset (l : list AnglesTuple) : list AnglesTuple :=
  fold_left set_add l [].

(** [Counter(l)] *)
Fixpoint counter_add (c : list (AnglesTuple * nat)) (k : AnglesTuple) : list (AnglesTuple * nat) :=
  match c with
  | [] => [(k, 1)]
  | (k', n) :: c' =>
      if tuple_eqb k' k then (k', S n) :: c' else (k', n) :: counter_add c' k
  end.

Definition Counter (l : list AnglesTuple) : list (AnglesTuple * nat) :=
  fold_left counter_add l [].

(** The order in which a [set] of strings is iterated: [set_iter l] for the
    set that received the strings of [l] one after the other.  It depends on
    the hashes of the members and on the history of the insertions, so
    nothing is known of it but that every member comes once. *)
Class PySet : Type := {
  set_iter : list string -> list string;
  set_iter_NoDup : forall l, NoDup (set_iter l);
  set_iter_In : forall l x, In x (set_iter l) <-> In x l
}.

(** [{x for x in l if keep x}], as the list of its iteration *)
Definition set_comprehension `{PySet} (keep : string -> bool) (l : list string) : list string :=
  set_iter (filter keep l).

(** ** The archive and the codec *)

(** An open [ZipFile]: the entries in the order of the central directory,
    and the number of streams open on it. *)
Record ZipFile : Type := {
  filelist : list (string * list byte);
  open_streams : nat
}.

Definition namelist (z : ZipFile) : list string := map fst (filelist z).

(** The entry a name denotes: the last one of that name. *)
Definition getinfo (z : ZipFile) (name : string) : option (list byte) :=
  option_map snd (find (fun e => String.eqb (fst e) name) (rev (filelist z))).

(** [z.open(name)]: the stream, here its content, and the archive with one
    more stream open. *)
Definition zip_open (z : ZipFile) (name : string) : result (list byte * ZipFile) :=
  match getinfo z name with
  | Some data =>
      Return (data, {| filelist := filelist z; open_streams := S (open_streams z) |})
  | None => Raise (NoSuchItem name)
  end.

(** Closing a stream, at the exit of the [with] block *)
Definition stream_close (z : ZipFile) : ZipFile :=
  {| filelist := filelist z; open_streams := pred (open_streams z) |}.

(** [cv2.imdecode(buf, flags)]: an array, [None] when the data cannot be
    decoded, or an error. *)
Class Cv2 : Type := {
  ndarray : Type;
  imdecode : list byte -> Z -> result (option ndarray)
}.

Definition IMREAD_ANYDEPTH : Z := 2.
Definition IMREAD_ANYCOLOR : Z := 4.

(** [np.frombuffer(data, np.uint8)] *)
Definition frombuffer (data : list byte) : list byte := data.

(** ** The class [Btfzip] *)

Record Btfzip : Type := {
  zip_filepath : string;
  _Btfzip__z : ZipFile;
  _Btfzip__angles_vs_filepath_dict : dict;
  angles_set : list AnglesTuple
}.

(** A line printed to [stderr]:
    [[BTF-Helper] '{zip_filepath}' has{counter} files with condition {angles}.] *)
Record stderr_line : Type := {
  line_zip_filepath : string;
  line_counter : nat;
  line_angles : AnglesTuple
}.

Section Construction.

Context `{PySet}.

(** The static method [_filename_to_angles] as [__init__] calls it, on a
    list of positional arguments. *)
Variable method : list string -> result AnglesTuple.

(** [{method(path, angle_sep): path for path in filepath_set}] *)
Fixpoint dict_comprehension (angle_sep : string) (filepath_set : list string) (d : dict)
  : result dict :=
  match filepath_set with
  | [] => Return d
  | path :: rest =>
      k <- method [path; angle_sep] ;;
      dict_comprehension angle_sep rest (dict_setitem d k path)
  end.

(** [[method(path) for path in filepath_set]] *)
Fixpoint list_comprehension (filepath_set : list string) : result (list AnglesTuple) :=
  match filepath_set with
  | [] => Return []
  | path :: rest =>
      a <- method [path] ;;
      l <- list_comprehension rest ;;
      Return (a :: l)
  end.

(** The loop over [angle_collection.items()] *)
Definition report (zip_filepath : string) (angle_collection : list (AnglesTuple * nat))
  : list stderr_line :=
  flat_map
    (fun '(angles, counter) =>
       if (1 <? counter)%nat
       then [{| line_zip_filepath := zip_filepath;
                line_counter := counter;
                line_angles := angles |}]
       else [])
    angle_collection.

(** [Btfzip.__init__]: what is written to [stderr], and the object or the
    exception.  [z] is the archive that [ZipFile(zip_filepath)] opens. *)
Definition init_with (zip_filepath : string) (z : ZipFile) (file_ext angle_sep : string)
  : list stderr_line * result Btfzip :=
  let filepath_set :=
    set_comprehension (fun path => PyStr.endswith path file_ext) (namelist z) in
  match dict_comprehension angle_sep filepath_set [] with
  | Raise e => ([], Raise e)
  | Return d =>
      let self :=
        {| zip_filepath := zip_filepath;
           _Btfzip__z := z;
           _Btfzip__angles_vs_filepath_dict := d;
           angles_set := frozenset (dict_keys d) |} in
      if negb (length filepath_set =? length (angles_set self))%nat then
        match list_comprehension filepath_set with
        | Raise e => ([], Raise e)
        | Return angles_list =>
            let angle_collection := Counter angles_list in
            (report zip_filepath angle_collection,
             Raise (DuplicatedConditions zip_filepath))
        end
      else ([], Return self)
  end.

End Construction.

(** [Btfzip(zip_filepath, file_ext, angle_sep)] *)
Definition Btfzip_init `{PySet} (zip_filepath : string) (z : ZipFile)
  (file_ext angle_sep : string) : list stderr_line * result Btfzip :=
  init_with call_filename_to_angles zip_filepath z file_ext angle_sep.

(** The defaults of [__init__] *)
Definition default_file_ext : string := ".exr".
Definition default_angle_sep : string := " ".

(** [not filepath] for the result of [dict.get]: true for [None] and for the
    empty string. *)
Definition not_ (filepath : option string) : bool :=
  match filepath with
  | None => true
  | Some EmptyString => true
  | Some _ => false
  end.

(** [Btfzip.angles_to_image(tl, pl, tv, pv)]: the result, and the object
    after the call. *)
Definition angles_to_image `{Cv2} (self : Btfzip) (tl pl tv pv : num)
  : result (option ndarray) * Btfzip :=
  let key := (tl, pl, tv, pv) in
  let filepath := dict_get (_Btfzip__angles_vs_filepath_dict self) key in
  if not_ filepath then (Raise (ConditionNotExist key (zip_filepath self)), self)
  else
    match filepath with
    | None => (Raise (ConditionNotExist key (zip_filepath self)), self)
    | Some path =>
        match zip_open (_Btfzip__z self) path with
        | Raise e => (Raise e, self)
        | Return (f, z1) =>
            let r := imdecode (frombuffer f) (IMREAD_ANYDEPTH + IMREAD_ANYCOLOR) in
            (r, {| zip_filepath := zip_filepath self;
                   _Btfzip__z := stream_close z1;
                   _Btfzip__angles_vs_filepath_dict := _Btfzip__angles_vs_filepath_dict self;
                   angles_set := angles_set self |})
        end
    end.

(** The parser as the specification words it: the suffix removed is as long
    as the configured extension. *)
Definition stem_per_spec (file_ext segment : string) : string :=
  PyStr.slice_to_neg (String.length file_ext) segment.

(** A set iterated in the order of the first insertions *)
Definition insertion_order : PySet :=
  {| set_iter := fun l => rev (nodup string_dec (rev l));
     set_iter_NoDup := fun l => NoDup_rev (NoDup_nodup string_dec (rev l));
     set_iter_In := fun l x =>
       iff_trans (iff_sym (in_rev (nodup string_dec (rev l)) x))
         (iff_trans (nodup_In string_dec (rev l) x) (iff_sym (in_rev l x))) |}.

(** A codec that returns the bytes it is given *)
Definition raw_codec : Cv2 :=
  {| ndarray := list byte; imdecode := fun buf _ => Return (Some buf) |}.

(** Two tuples that [==] tells apart *)
Definition differ (a b : AnglesTuple) : Prop := tuple_eqb a b = false.

(** A parser that refuses every path without the extension [file_ext] *)
Definition strict_method (file_ext : string) (args : list string) : result AnglesTuple :=
  match args with
  | path :: _ =>
      if PyStr.endswith path file_ext then call_filename_to_angles args
      else Raise (CodecError "a path without the extension was parsed")
  | [] => call_filename_to_angles args
  end.

(** An archive of two images and a text file, and the object built from it *)
Definition example_zip : ZipFile :=
  {| filelist := [("tl0 pl0 tv0 pv0.exr", [x01]);
                  ("b/tl0 pl90 tv0 pv0.exr", [x02]);
                  ("notes.txt", [])];
     open_streams := 1 |}.

(** An archive in which two names do not parse *)
Definition failing_zip : ZipFile :=
  {| filelist := [("tl0 pl0 tv0 pv0.exr", [x01]); ("readme.exr", []); ("tl0.exr", [])];
     open_streams := 1 |}.

Definition example_btfzip : Btfzip :=
  {| zip_filepath := "btf.zip";
     _Btfzip__z := example_zip;
     _Btfzip__angles_vs_filepath_dict :=
       [((0, 0, 0, 0)%float, "tl0 pl0 tv0 pv0.exr");
        ((0, 90, 0, 0)%float, "b/tl0 pl90 tv0 pv0.exr")];
     angles_set := [(0, 0, 0, 0)%float; (0, 90, 0, 0)%float] |}.

(** An archive with a NaN among the angles, and the object built from it *)
Definition nan_zip : ZipFile :=
  {| filelist := [("tlnan pl0 tv0 pv0.exr", [x03])]; open_streams := 1 |}.

Definition nan_btfzip : Btfzip :=
  {| zip_filepath := "btf.zip";
     _Btfzip__z := nan_zip;
     _Btfzip__angles_vs_filepath_dict := [((nan, 0, 0, 0)%float, "tlnan pl0 tv0 pv0.exr")];
     angles_set := [(nan, 0, 0, 0)%float] |}.

(** A filename in a directory of the archive, or at its root *)
Definition in_dir (dir : option string) (name : string) : string :=
  match dir with
  | Some d => d ++ "/" ++ name
  | None => name
  end.

(** The filename pattern [tl{a} pl{b} tv{c} pv{d}{ext}] with the default
    separator, for the literals [sa], [sb], [sc], [sd] of the four angles *)
Definition angles_filename (sa sb sc sd ext : string) : string :=
  "tl" ++ sa ++ " pl" ++ sb ++ " tv" ++ sc ++ " pv" ++ sd ++ ext.

(** The token [t] parses as a float once its label of two characters is
    removed. *)
Definition token_parses (t : string) : bool :=
  match PyFloat.float_of_str (PyStr.slice_from 2 t) with
  | Some _ => true
  | None => false
  end.

(** [s] is a literal of the float [x] that can stand in a filename split on
    spaces. *)
Definition literal_of (s : string) (x : float) : Prop :=
  PyFloat.float_of_str s = Some x
  /\ PyStr.has_char " " s = false
  /\ PyStr.has_char "/" s = false.

(** The filename pattern with a separator of one character [c], as in
    [tl20.25_pl10_tv11.5_pv0.exr] *)
Definition angles_filename_sep (c : ascii) (sa sb sc sd ext : string) : string :=
  "tl" ++ sa ++ String c ("pl" ++ sb ++ String c ("tv" ++ sc ++ String c ("pv" ++ sd ++ ext))).

(** The call [angles_to_image(t1, t2, t3, t4)] with float objects of the
    caller's that have the values of a tuple [t] of [angles_set] *)
Definition as_key (t : AnglesTuple) : Key :=
  let '(t1, t2, t3, t4) := t in (PyFloat t1, PyFloat t2, PyFloat t3, PyFloat t4).

(** The call [angles_to_image( *t)] for the member number [j] of
    [angles_set] itself: the key of the four objects it holds *)
Definition own_key (j : nat) (t : AnglesTuple) : Key :=
  let '(t1, t2, t3, t4) := t in
  (PyKeyFloat j 0 t1, PyKeyFloat j 1 t2, PyKeyFloat j 2 t3, PyKeyFloat j 3 t4).

(** ** Strings: slicing and splitting *)

Section StringFacts.

Local Open Scope string_scope.

Lemma append_empty_r (s : string) : s ++ "" = s.
Proof. induction s as [|c s IH]; simpl; [reflexivity | now rewrite IH]. Qed.

Lemma append_assoc (a b c : string) : (a ++ b) ++ c = a ++ (b ++ c).
Proof. induction a as [|x a IH]; simpl; [reflexivity | now rewrite IH]. Qed.

Lemma length_append (a b : string) :
  String.length (a ++ b) = String.length a + String.length b.
Proof. induction a as [|x a IH]; simpl; [reflexivity | now rewrite IH]. Qed.

Lemma slice_to_append (a b : string) : PyStr.slice_to (String.length a) (a ++ b) = a.
Proof. induction a as [|x a IH]; simpl; [now destruct b | now rewrite IH]. Qed.

(** [(s + ext)[:-4] = s] for an extension of four characters *)
Lemma slice_to_neg_ext (s ext : string) :
  String.length ext = 4 -> PyStr.slice_to_neg 4 (s ++ ext) = s.
Proof.
  intros Hlen. unfold PyStr.slice_to_neg.
  rewrite length_append, Hlen.
  replace (String.length s + 4 - 4) with (String.length s) by lia.
  apply slice_to_append.
Qed.

Lemma has_char_append (c : ascii) (a b : string) :
  PyStr.has_char c (a ++ b) = PyStr.has_char c a || PyStr.has_char c b.
Proof.
  induction a as [|x a IH]; simpl; [reflexivity |].
  now rewrite IH, orb_assoc.
Qed.

Lemma prefix_empty (s : string) : String.prefix "" s = true.
Proof. now destruct s. Qed.

Lemma prefix_char (c x : ascii) (s : string) :
  String.prefix (String c "") (String x s) = Ascii.eqb x c.
Proof.
  simpl. destruct (ascii_dec c x) as [->|Hne].
  - now rewrite prefix_empty, Ascii.eqb_refl.
  - symmetry. apply Ascii.eqb_neq. congruence.
Qed.

Variable c : ascii.

(** A string without the separator is a single token. *)
Lemma split_scan_token (s cur : string) :
  PyStr.has_char c s = false ->
  PyStr.split_scan (String c "") 0 cur s = [cur ++ s].
Proof.
  revert cur. induction s as [|x s IH]; intros cur Hs.
  - simpl. now rewrite append_empty_r.
  - cbn [PyStr.has_char] in Hs. apply orb_false_iff in Hs as [Hx Hs].
    cbn [PyStr.split_scan]. rewrite prefix_char, Hx.
    rewrite (IH _ Hs), append_assoc. reflexivity.
Qed.

(** The first token ends at the first separator. *)
Lemma split_scan_cons (a rest cur : string) :
  PyStr.has_char c a = false ->
  PyStr.split_scan (String c "") 0 cur (a ++ String c rest)
  = (cur ++ a) :: PyStr.split_scan (String c "") 0 "" rest.
Proof.
  revert cur. induction a as [|x a IH]; intros cur Ha.
  - cbn [append PyStr.split_scan]. rewrite prefix_char, Ascii.eqb_refl.
    now rewrite append_empty_r.
  - cbn [PyStr.has_char] in Ha. apply orb_false_iff in Ha as [Hx Ha].
    cbn [append PyStr.split_scan]. rewrite prefix_char, Hx.
    rewrite (IH _ Ha), append_assoc. reflexivity.
Qed.

Lemma getitem_last_cons {A : Type} (x y : A) (l : list A) :
  getitem_last (x :: y :: l) = getitem_last (y :: l).
Proof.
  unfold getitem_last. simpl.
  destruct (rev l ++ [y])%list as [|z t] eqn:E.
  - destruct (rev l); discriminate.
  - reflexivity.
Qed.

Lemma split_scan_not_nil (sep cur s : string) (k : nat) :
  PyStr.split_scan sep k cur s <> [].
Proof.
  revert k cur. induction s as [|x s IH]; intros k cur; cbn [PyStr.split_scan].
  - discriminate.
  - destruct k; [destruct (String.prefix sep (String x s))|]; try discriminate; apply IH.
Qed.

(** The last segment of a path is what follows its last separator. *)
Lemma split_scan_last (dir name cur : string) :
  PyStr.has_char c name = false ->
  getitem_last (PyStr.split_scan (String c "") 0 cur (dir ++ String c name))
  = Return name.
Proof.
  intros Hname. revert cur. induction dir as [|x dir IH]; intros cur.
  - rewrite (split_scan_cons "" name cur eq_refl).
    now rewrite (split_scan_token name "" Hname).
  - cbn [append PyStr.split_scan]. rewrite prefix_char.
    destruct (Ascii.eqb x c).
    + cbn [String.length Nat.sub].
      destruct (PyStr.split_scan (String c "") 0 "" (dir ++ String c name)) as [|y l] eqn:E.
      * now apply split_scan_not_nil in E.
      * rewrite getitem_last_cons, <- E. apply IH.
    + apply IH.
Qed.

End StringFacts.

(** ** The filename parser *)

Section Parser.

Local Open Scope string_scope.

Lemma py_float_literal (s : string) (x : float) :
  PyFloat.float_of_str s = Some x -> py_float s = Return x.
Proof. unfold py_float. now intros ->. Qed.

Lemma literal_no_char (c : ascii) (label s : string) :
  PyStr.has_char c label = false -> PyStr.has_char c s = false ->
  PyStr.has_char c (label ++ s) = false.
Proof. intros Hl Hs. now rewrite has_char_append, Hl, Hs. Qed.

(** Line 75 on a filename of the pattern: the four labelled tokens. *)
Lemma split_angles_pattern (dir : option string) (sa sb sc sd ext : string) :
  PyStr.has_char " " sa = false -> PyStr.has_char " " sb = false ->
  PyStr.has_char " " sc = false -> PyStr.has_char " " sd = false ->
  PyStr.has_char "/" (angles_filename sa sb sc sd ext) = false ->
  String.length ext = 4 ->
  split_angles (in_dir dir (angles_filename sa sb sc sd ext)) " "
  = Return ["tl" ++ sa; "pl" ++ sb; "tv" ++ sc; "pv" ++ sd].
Proof.
  intros Ha Hb Hc Hd Hslash Hext.
  unfold split_angles, str_split. cbn [PyStr.split bind].
  assert (Hlast : getitem_last
                    (PyStr.split_scan "/" 0 "" (in_dir dir (angles_filename sa sb sc sd ext)))
                  = Return (angles_filename sa sb sc sd ext)).
  { destruct dir as [d|]; cbn [in_dir].
    - apply split_scan_last, Hslash.
    - now rewrite (split_scan_token _ _ "" Hslash). }
  rewrite Hlast. cbn [bind].
  assert (Hstem : angles_filename sa sb sc sd ext
                  = (("tl" ++ sa) ++ String " " (("pl" ++ sb) ++ String " "
                      (("tv" ++ sc) ++ String " " ("pv" ++ sd)))) ++ ext).
  { unfold angles_filename. cbn [append].
    repeat (rewrite append_assoc; cbn [append]). reflexivity. }
  rewrite Hstem, (slice_to_neg_ext _ _ Hext).
  rewrite split_scan_cons by now apply literal_no_char.
  rewrite split_scan_cons by now apply literal_no_char.
  rewrite split_scan_cons by now apply literal_no_char.
  rewrite split_scan_token by now apply literal_no_char.
  reflexivity.
Qed.

(** C3: a filename [tl{a} pl{b} tv{c} pv{d}.ext], with the default
    separator and an extension of four characters, parses to exactly
    [(a, b, c, d)], the floats its four literals denote, in that order;
    fractional literals are read as they stand. *)
Theorem filename_to_angles_pattern
  (dir : option string) (sa sb sc sd ext : string) (a b c d : float) :
  literal_of sa a -> literal_of sb b -> literal_of sc c -> literal_of sd d ->
  String.length ext = 4 -> PyStr.has_char "/" ext = false ->
  _filename_to_angles (in_dir dir (angles_filename sa sb sc sd ext)) default_angle_sep
  = Return (a, b, c, d).
Proof.
  intros (Fa & Sa & Da) (Fb & Sb & Db) (Fc & Sc & Dc) (Fd & Sd & Dd) Hext Hslash.
  unfold _filename_to_angles, default_angle_sep.
  rewrite split_angles_pattern; trivial.
  - cbn [bind getitem nth_error append PyStr.slice_from].
    rewrite (py_float_literal _ _ Fa), (py_float_literal _ _ Fb),
      (py_float_literal _ _ Fc), (py_float_literal _ _ Fd).
    reflexivity.
  - unfold angles_filename.
    rewrite !has_char_append, Da, Db, Dc, Dd, Hslash. reflexivity.
Qed.

Lemma filename_to_angles_pattern_witness :
  _filename_to_angles "tl20.25 pl10 tv11.5 pv0.exr" " "
  = Return (20.25, 10, 11.5, 0)%float.
Proof.
  apply (filename_to_angles_pattern None "20.25" "10" "11.5" "0" ".exr");
    repeat split; vm_compute; reflexivity.
Defined.

(** C5: when the stem splits into four tokens or more and one of the first
    four does not parse as a float once its label of two characters is
    removed, the parser raises the [ValueError] that carries the list of
    tokens. *)
Theorem filename_to_angles_invalid
  (filename sep : string) (angles : list string) (i : nat) (t : string) :
  split_angles filename sep = Return angles ->
  4 <= length angles ->
  i < 4 -> nth_error angles i = Some t -> token_parses t = false ->
  exists e cause,
    _filename_to_angles filename sep = Raise e
    /\ e = InvalidAngle angles cause
    /\ class_of e = ValueError.
Proof.
  intros Hsplit Hlen Hi Ht Hbad.
  unfold _filename_to_angles. rewrite Hsplit. cbn [bind].
  destruct angles as [|t0 [|t1 [|t2 [|t3 rest]]]]; simpl in Hlen; try lia.
  unfold token_parses in Hbad.
  cbn [getitem nth_error bind]. unfold py_float.
  destruct i as [|[|[|[|i]]]]; try lia; cbn [nth_error] in Ht;
    injection Ht as <-;
    repeat match goal with
      | |- context [PyFloat.float_of_str (PyStr.slice_from 2 ?x)] =>
          destruct (PyFloat.float_of_str (PyStr.slice_from 2 x)); cbn [bind]
      end;
    try discriminate; cbn [try_except_ValueError is_ValueError class_of];
    do 2 eexists; repeat split.
Qed.

Lemma filename_to_angles_invalid_witness :
  exists e cause,
    _filename_to_angles "tl0 pl0 tvx pv0.exr" " " = Raise e
    /\ e = InvalidAngle ["tl0"; "pl0"; "tvx"; "pv0"] cause
    /\ class_of e = ValueError.
Proof.
  apply (filename_to_angles_invalid "tl0 pl0 tvx pv0.exr" " "
           ["tl0"; "pl0"; "tvx"; "pv0"] 2 "tvx");
    solve [vm_compute; reflexivity | simpl; lia].
Defined.

(** With fewer than four tokens the outcome depends on whether the tokens
    present parse. *)
Lemma short_angles_outcome (angles : list string) :
  length angles < 4 ->
  try_except_ValueError
    (tl <- (a <- getitem angles 0 ;; py_float (PyStr.slice_from 2 a)) ;;
     pl <- (a <- getitem angles 1 ;; py_float (PyStr.slice_from 2 a)) ;;
     tv <- (a <- getitem angles 2 ;; py_float (PyStr.slice_from 2 a)) ;;
     pv <- (a <- getitem angles 3 ;; py_float (PyStr.slice_from 2 a)) ;;
     Return (tl, pl, tv, pv))
    (fun e => Raise (InvalidAngle angles e))
  = if forallb token_parses angles
    then Raise ListIndexOutOfRange
    else match find (fun t => negb (token_parses t)) angles with
         | Some t => Raise (InvalidAngle angles (FloatConversion (PyStr.slice_from 2 t)))
         | None => Raise ListIndexOutOfRange
         end.
Proof.
  intros Hlen.
  destruct angles as [|t0 [|t1 [|t2 [|t3 rest]]]]; simpl in Hlen; try lia;
    cbn [getitem nth_error bind forallb find]; unfold token_parses, py_float;
    repeat match goal with
      | |- context [PyFloat.float_of_str (PyStr.slice_from 2 ?x)] =>
          destruct (PyFloat.float_of_str (PyStr.slice_from 2 x)); cbn [bind andb negb]
      end;
    reflexivity.
Qed.

(** C10, as stated, fails: a stem of fewer than four tokens need not end in
    an [IndexError].  The stem of [notes.exr] is the single token [notes];
    [float("tes")] raises the [ValueError] that the handler catches. *)
Lemma short_filename_not_always_IndexError :
  ~ (forall filename sep angles,
        split_angles filename sep = Return angles ->
        length angles < 4 ->
        exists e, _filename_to_angles filename sep = Raise e
                  /\ class_of e = IndexError).
Proof.
  intros Hclaim.
  destruct (Hclaim "notes.exr" " " ["notes"]) as (e & He & Hclass).
  - vm_compute. reflexivity.
  - simpl. lia.
  - vm_compute in He. injection He as <-. discriminate Hclass.
Qed.

(** C10, amended: with fewer than four tokens, the parser raises an
    [IndexError], which the handler does not catch, when every token present
    parses as a float; when one of them does not, it raises the
    [ValueError] that carries the list of tokens. *)
Theorem filename_to_angles_short
  (filename sep : string) (angles : list string) :
  split_angles filename sep = Return angles ->
  length angles < 4 ->
  (forallb token_parses angles = true ->
     _filename_to_angles filename sep = Raise ListIndexOutOfRange
     /\ class_of ListIndexOutOfRange = IndexError
     /\ is_ValueError ListIndexOutOfRange = false)
  /\ (forallb token_parses angles = false ->
        exists cause, _filename_to_angles filename sep = Raise (InvalidAngle angles cause)
                      /\ class_of (InvalidAngle angles cause) = ValueError).
Proof.
  intros Hsplit Hlen.
  unfold _filename_to_angles. rewrite Hsplit. cbn [bind].
  rewrite (short_angles_outcome angles Hlen).
  split; intros Hall; rewrite Hall.
  - repeat split.
  - destruct (find (fun t => negb (token_parses t)) angles) as [t|] eqn:Hfind.
    + eexists. split; reflexivity.
    + exfalso.
      assert (Hforall : forallb token_parses angles = true).
      { apply forallb_forall. intros t Ht.
        pose proof (find_none _ _ Hfind t Ht) as Hn. cbv beta in Hn.
        destruct (token_parses t); [reflexivity | discriminate Hn]. }
      congruence.
Qed.

(** C2: the suffix removed has four characters whatever the extension.
    With [file_ext = ".gz"] the last digit of the angle goes with the
    extension and [pv10] is read as 1; with [file_ext = ".jpeg"] the point
    stays and the literal [0.5.] is refused.  Removing as many characters
    as the extension has gives the stems [pv10] and [pv0.5]. *)
Theorem stem_drops_four_characters :
  PyStr.slice_to_neg 4 "tl0 pl0 tv0 pv10.gz" = "tl0 pl0 tv0 pv1"
  /\ stem_per_spec ".gz" "tl0 pl0 tv0 pv10.gz" = "tl0 pl0 tv0 pv10"
  /\ _filename_to_angles "tl0 pl0 tv0 pv10.gz" " " = Return (0, 0, 0, 1)%float
  /\ PyStr.slice_to_neg 4 "tl0 pl0 tv0 pv0.5.jpeg" = "tl0 pl0 tv0 pv0.5."
  /\ stem_per_spec ".jpeg" "tl0 pl0 tv0 pv0.5.jpeg" = "tl0 pl0 tv0 pv0.5"
  /\ _filename_to_angles "tl0 pl0 tv0 pv0.5.jpeg" " "
     = Raise (InvalidAngle ["tl0"; "pl0"; "tv0"; "pv0.5."] (FloatConversion "0.5.")).
Proof. repeat split; vm_compute; reflexivity. Qed.

End Parser.

(** ** Lookup *)

Section Lookup.

Context `{Cv2}.

Lemma stream_close_open (z : ZipFile) (name : string) (f : list byte) (z1 : ZipFile) :
  zip_open z name = Return (f, z1) -> stream_close z1 = z.
Proof.
  unfold zip_open. destruct (getinfo z name); [|discriminate].
  intros [= _ <-]. now destruct z.
Qed.

(** A lookup leaves the object as it was: the index and the set are not
    written, and the stream opened on the archive is closed. *)
Lemma angles_to_image_state (self : Btfzip) (tl pl tv pv : num) :
  snd (angles_to_image self tl pl tv pv) = self.
Proof.
  unfold angles_to_image.
  destruct (not_ _); [reflexivity|].
  destruct (dict_get _ _) as [path|]; [|reflexivity].
  destruct (zip_open _ path) as [[f z1]|e] eqn:Hopen; [|reflexivity].
  cbn [snd]. rewrite (stream_close_open _ _ _ _ Hopen). now destruct self.
Qed.



Lemma getinfo_present (z : ZipFile) (name : string) :
  In name (namelist z) -> exists data, getinfo z name = Some data.
Proof.
  intros Hin. unfold getinfo.
  destruct (find _ _) as [e|] eqn:Hfind; [now exists (snd e)|].
  exfalso. unfold namelist in Hin. apply in_map_iff in Hin as ([n data] & Hn & He).
  cbn [fst] in Hn. subst n.
  pose proof (find_none _ _ Hfind (name, data)) as Hnone.
  cbn [fst] in Hnone. rewrite String.eqb_refl in Hnone.
  discriminate Hnone. now apply in_rev in He.
Qed.

(** The lookup of a key that is in the index under a path of the archive *)
Lemma angles_to_image_found (self : Btfzip) (tl pl tv pv : num) (path : string)
  (data : list byte) :
  dict_get (_Btfzip__angles_vs_filepath_dict self) (tl, pl, tv, pv) = Some path ->
  path <> EmptyString ->
  getinfo (_Btfzip__z self) path = Some data ->
  angles_to_image self tl pl tv pv
  = (imdecode (frombuffer data) (IMREAD_ANYDEPTH + IMREAD_ANYCOLOR), self).
Proof.
  intros Hget Hne Hinfo.
  pose proof (angles_to_image_state self tl pl tv pv) as Hstate.
  revert Hstate. unfold angles_to_image. rewrite Hget.
  destruct path as [|c path]; [congruence|]. cbn [not_].
  unfold zip_open. rewrite Hinfo. cbn [snd]. now intros ->.
Qed.


End Lookup.

(** ** Construction *)

Section ConstructionFacts.

Context `{PySet}.

Lemma set_iter_perm (l : list string) : NoDup l -> Permutation (set_iter l) l.
Proof.
  intros Hl. apply NoDup_Permutation; [apply set_iter_NoDup | exact Hl | apply set_iter_In].
Qed.

Lemma set_comprehension_In (keep : string -> bool) (l : list string) (p : string) :
  In p (set_comprehension keep l) <-> In p l /\ keep p = true.
Proof. unfold set_comprehension. rewrite set_iter_In. apply filter_In. Qed.

Lemma set_comprehension_NoDup (keep : string -> bool) (l : list string) :
  NoDup (set_comprehension keep l).
Proof. apply set_iter_NoDup. Qed.

Lemma set_comprehension_length (keep : string -> bool) (l : list string) :
  length (set_comprehension keep l) = length (nodup string_dec (filter keep l)).
Proof.
  apply Permutation_length, NoDup_Permutation.
  - apply set_iter_NoDup.
  - apply NoDup_nodup.
  - intros x. unfold set_comprehension. rewrite set_iter_In. symmetry. apply nodup_In.
Qed.

Lemma set_iter_one (p : string) : set_iter [p] = [p].
Proof.
  apply Permutation_length_1_inv, Permutation_sym, set_iter_perm.
  repeat constructor. intros [].
Qed.

Lemma set_iter_two (p q : string) :
  p <> q -> set_iter [p; q] = [p; q] \/ set_iter [p; q] = [q; p].
Proof.
  intros Hpq. apply Permutation_length_2_inv, Permutation_sym, set_iter_perm.
  repeat constructor; [intros [E|[]]; congruence | intros []].
Qed.

(** *** The dict comprehension *)

Lemma dict_setitem_In (d : dict) (k0 : AnglesTuple) (v0 : string) (k : AnglesTuple)
  (v : string) :
  In (k, v) (dict_setitem d k0 v0) -> v = v0 \/ In (k, v) d.
Proof.
  induction d as [|[k' v'] d IH]; cbn [dict_setitem].
  - intros [[= <- <-]|[]]. now left.
  - destruct (tuple_eqb k' k0).
    + intros [[= <- <-]|Hin]; [now left | right; now right].
    + intros [Heq|Hin]; [right; now left|].
      destruct (IH Hin) as [->|Hd]; [now left | right; now right].
Qed.

Lemma dict_get_In (d : dict) (key : Key) (path : string) :
  dict_get d key = Some path -> exists k, In (k, path) d.
Proof.
  unfold dict_get. generalize 0.
  induction d as [|[k v] d IH]; intros j0; cbn [dict_get_from]; [discriminate|].
  destruct (key_match j0 k key).
  - intros [= ->]. exists k. now left.
  - intros Hget. destruct (IH _ Hget) as [k' Hin]. exists k'. now right.
Qed.

Section Method.

Variable method : list string -> result AnglesTuple.

(** The values of the dict are paths of the set. *)
Lemma dict_comprehension_values (sep : string) (ps : list string) (d d' : dict) :
  dict_comprehension method sep ps d = Return d' ->
  forall k v, In (k, v) d' -> In v ps \/ In (k, v) d.
Proof.
  revert d. induction ps as [|p ps IH]; intros d; cbn [dict_comprehension].
  - intros [= <-] k v Hin. now right.
  - destruct (method [p; sep]) as [k0|e]; cbn [bind]; [|discriminate].
    intros Hrest k v Hin.
    destruct (IH _ Hrest k v Hin) as [Hps|Hset]; [left; now right|].
    destruct (dict_setitem_In _ _ _ _ _ Hset) as [->|Hd]; [left; now left | now right].
Qed.

(** Every path of the set has been parsed. *)
Lemma dict_comprehension_parsed (sep : string) (ps : list string) (d d' : dict) :
  dict_comprehension method sep ps d = Return d' ->
  forall p, In p ps -> exists k, method [p; sep] = Return k.
Proof.
  revert d. induction ps as [|p ps IH]; intros d; cbn [dict_comprehension].
  - intros _ p [].
  - destruct (method [p; sep]) as [k0|e] eqn:Hp; cbn [bind]; [|discriminate].
    intros Hrest q [<-|Hq]; [now exists k0 | now apply (IH _ Hrest)].
Qed.

Variable method' : list string -> result AnglesTuple.

Lemma dict_comprehension_agree (sep : string) (ps : list string) (d : dict) :
  (forall p, In p ps -> method [p; sep] = method' [p; sep]) ->
  dict_comprehension method sep ps d = dict_comprehension method' sep ps d.
Proof.
  revert d. induction ps as [|p ps IH]; intros d Hagree; [reflexivity|].
  cbn [dict_comprehension]. rewrite <- (Hagree p (or_introl eq_refl)).
  destruct (method [p; sep]); cbn [bind]; [|reflexivity].
  apply IH. intros q Hq. apply Hagree. now right.
Qed.

Lemma list_comprehension_agree (ps : list string) :
  (forall p, In p ps -> method [p] = method' [p]) ->
  list_comprehension method ps = list_comprehension method' ps.
Proof.
  induction ps as [|p ps IH]; intros Hagree; [reflexivity|].
  cbn [list_comprehension]. rewrite <- (Hagree p (or_introl eq_refl)).
  rewrite IH; [reflexivity|]. intros q Hq. apply Hagree. now right.
Qed.

End Method.

(** *** Sets and dicts of pairwise different tuples *)

Lemma ForallOrdPairs_app_head {A : Type} (R : A -> A -> Prop) (l1 : list A) (x : A)
  (l2 : list A) :
  ForallOrdPairs R (l1 ++ x :: l2) -> Forall (fun y => R y x) l1.
Proof.
  induction l1 as [|a l1 IH]; cbn [app]; intros Hfop; [constructor|].
  inversion Hfop as [|? ? Ha Hrest]; subst. constructor.
  - rewrite Forall_forall in Ha. apply Ha, in_elt.
  - now apply IH.
Qed.

Lemma dict_setitem_fresh (d : dict) (k : AnglesTuple) (v : string) :
  Forall (fun k' => differ k' k) (dict_keys d) ->
  dict_setitem d k v = d ++ [(k, v)].
Proof.
  induction d as [|[k' v'] d IH]; cbn [dict_keys map fst]; intros Hall; [reflexivity|].
  inversion Hall as [|? ? Hk Hrest]; subst.
  cbn [dict_setitem app]. unfold differ in Hk. rewrite Hk. now rewrite IH.
Qed.

Lemma set_add_fresh (s : list AnglesTuple) (k : AnglesTuple) :
  Forall (fun k' => differ k' k) s -> set_add s k = s ++ [k].
Proof.
  induction s as [|k' s IH]; intros Hall; [reflexivity|].
  inversion Hall as [|? ? Hk Hrest]; subst.
  cbn [set_add app]. unfold differ in Hk. rewrite Hk. now rewrite IH.
Qed.

Lemma frozenset_distinct (l s : list AnglesTuple) :
  ForallOrdPairs differ (s ++ l) -> fold_left set_add l s = s ++ l.
Proof.
  revert s. induction l as [|k l IH]; intros s Hfop; cbn [fold_left].
  - now rewrite app_nil_r.
  - rewrite (set_add_fresh s k) by now apply ForallOrdPairs_app_head in Hfop.
    rewrite IH.
    + now rewrite <- List.app_assoc.
    + now rewrite <- List.app_assoc.
Qed.

Lemma dict_comprehension_distinct (method : list string -> result AnglesTuple)
  (sep : string) (ps : list string) (ts : list AnglesTuple) (d : dict) :
  Forall2 (fun p t => method [p; sep] = Return t) ps ts ->
  ForallOrdPairs differ (dict_keys d ++ ts) ->
  dict_comprehension method sep ps d = Return (d ++ combine ts ps).
Proof.
  intros Hparse. revert d.
  induction Hparse as [|p t ps ts Hp Hrest IH]; intros d Hfop.
  - cbn [dict_comprehension combine]. now rewrite app_nil_r.
  - cbn [dict_comprehension combine]. rewrite Hp. cbn [bind].
    rewrite (dict_setitem_fresh d t p) by now apply ForallOrdPairs_app_head in Hfop.
    rewrite IH.
    + now rewrite <- List.app_assoc.
    + unfold dict_keys in *. rewrite map_app, <- List.app_assoc. exact Hfop.
Qed.

Lemma combine_fst {A B : Type} (la : list A) (lb : list B) :
  length la = length lb -> map fst (combine la lb) = la.
Proof.
  revert lb. induction la as [|a la IH]; intros [|b lb] Hlen;
    try discriminate; [reflexivity|].
  cbn [combine map fst]. f_equal. apply IH. now injection Hlen.
Qed.

Lemma combine_snd {A B : Type} (la : list A) (lb : list B) :
  length la = length lb -> map snd (combine la lb) = lb.
Proof.
  revert lb. induction la as [|a la IH]; intros [|b lb] Hlen;
    try discriminate; [reflexivity|].
  cbn [combine map snd]. f_equal. apply IH. now injection Hlen.
Qed.

Lemma NoDup_values_injective (d : dict) :
  NoDup (map snd d) ->
  forall k1 k2 path, In (k1, path) d -> In (k2, path) d -> k1 = k2.
Proof.
  induction d as [|[k v] d IH]; intros Hnd k1 k2 path; [intros []|].
  cbn [map snd] in Hnd. inversion Hnd as [|? ? Hnot Hrest]; subst.
  intros [E1|H1] [E2|H2].
  - congruence.
  - exfalso. apply Hnot. apply (in_map snd) in H2. cbn [snd] in H2. congruence.
  - exfalso. apply Hnot. apply (in_map snd) in H1. cbn [snd] in H1. congruence.
  - now apply (IH Hrest k1 k2 path).
Qed.

Lemma frozenset_In (l s : list AnglesTuple) (a : AnglesTuple) :
  In a (fold_left set_add l s) -> In a s \/ In a l.
Proof.
  revert s. induction l as [|k l IH]; intros s; cbn [fold_left]; [now left|].
  intros Hin. destruct (IH _ Hin) as [Hs|Hl]; [|right; now right].
  clear IH Hin. induction s as [|k' s IHs]; cbn [set_add] in Hs.
  - destruct Hs as [<-|[]]. right. now left.
  - destruct (tuple_eqb k' k); [now left|].
    destruct Hs as [<-|Hs]; [left; now left|].
    destruct (IHs Hs) as [Hin|Hin]; [left; now right | now right].
Qed.

End ConstructionFacts.

(** ** The index *)

Section Index.

Context `{PySet} `{Cv2}.

Lemma init_with_Return (method : list string -> result AnglesTuple)
  (zip : string) (z : ZipFile) (file_ext angle_sep : string)
  (out : list stderr_line) (self : Btfzip) :
  init_with method zip z file_ext angle_sep = (out, Return self) ->
  out = []
  /\ dict_comprehension method angle_sep
       (set_comprehension (fun path => PyStr.endswith path file_ext) (namelist z)) []
     = Return (_Btfzip__angles_vs_filepath_dict self)
  /\ _Btfzip__z self = z
  /\ zip_filepath self = zip
  /\ angles_set self = frozenset (dict_keys (_Btfzip__angles_vs_filepath_dict self)).
Proof.
  unfold init_with.
  destruct (dict_comprehension _ _ _ _) as [d|e]; [|discriminate].
  cbn [angles_set]. destruct (negb _).
  - destruct (list_comprehension _ _); discriminate.
  - intros [= <- <-]. repeat split.
Qed.

(** The empty path is not a filename of the pattern, so it is never in the
    index. *)
Lemma filename_empty_raises (sep : string) (t : AnglesTuple) :
  _filename_to_angles "" sep <> Return t.
Proof. destruct sep; vm_compute; discriminate. Qed.

(** The paths of the index are entries of the archive with the configured
    extension; none is empty. *)
Lemma init_index_paths (zip : string) (z : ZipFile) (file_ext angle_sep : string)
  (out : list stderr_line) (self : Btfzip) :
  Btfzip_init zip z file_ext angle_sep = (out, Return self) ->
  forall k path,
    In (k, path) (_Btfzip__angles_vs_filepath_dict self) ->
    In path (namelist z) /\ PyStr.endswith path file_ext = true /\ path <> EmptyString.
Proof.
  intros Hinit k path Hin.
  apply init_with_Return in Hinit as (_ & Hdict & _).
  assert (Hset : In path (set_comprehension (fun p => PyStr.endswith p file_ext) (namelist z))).
  { destruct (dict_comprehension_values _ _ _ _ _ Hdict k path Hin) as [Hps|[]]. exact Hps. }
  destruct (dict_comprehension_parsed _ _ _ _ _ Hdict path Hset) as [t Ht].
  apply set_comprehension_In in Hset as [Hname Hext].
  repeat split; trivial.
  intros ->. cbn [call_filename_to_angles] in Ht.
  now apply filename_empty_raises in Ht.
Qed.

(** C6: entries whose path does not end with the configured extension are
    left out before any parsing.  The construction is the same whatever the
    parser would do on such paths, and every path of the index, and so every
    member of [angles_set], comes from an entry with the extension. *)
Theorem other_extensions_excluded (method : list string -> result AnglesTuple)
  (zip : string) (z : ZipFile) (file_ext angle_sep : string) :
  (forall path rest,
      PyStr.endswith path file_ext = true ->
      method (path :: rest) = call_filename_to_angles (path :: rest)) ->
  init_with method zip z file_ext angle_sep = Btfzip_init zip z file_ext angle_sep
  /\ forall self,
       snd (Btfzip_init zip z file_ext angle_sep) = Return self ->
       (forall k path,
           In (k, path) (_Btfzip__angles_vs_filepath_dict self) ->
           In path (namelist z) /\ PyStr.endswith path file_ext = true)
       /\ (forall a,
             In a (angles_set self) ->
             exists path,
               In (a, path) (_Btfzip__angles_vs_filepath_dict self)
               /\ PyStr.endswith path file_ext = true).
Proof.
  intros Hagree. split.
  - unfold Btfzip_init, init_with.
    rewrite (dict_comprehension_agree method call_filename_to_angles).
    + rewrite (list_comprehension_agree method call_filename_to_angles); [reflexivity|].
      intros p Hp. apply Hagree. now apply set_comprehension_In in Hp.
    + intros p Hp. apply Hagree. now apply set_comprehension_In in Hp.
  - intros self Hself.
    destruct (Btfzip_init zip z file_ext angle_sep) as [out r] eqn:Hinit.
    cbn [snd] in Hself. subst r.
    pose proof (init_index_paths _ _ _ _ _ _ Hinit) as Hpaths.
    split.
    + intros k path Hin. destruct (Hpaths k path Hin) as (Hn & He & _). now split.
    + intros a Ha.
      apply init_with_Return in Hinit as (_ & _ & _ & _ & Hset).
      rewrite Hset in Ha. unfold frozenset in Ha.
      apply frozenset_In in Ha as [[]|Ha].
      unfold dict_keys in Ha. apply in_map_iff in Ha as ([k path] & <- & Hin).
      exists path. split; [exact Hin|]. now destruct (Hpaths k path Hin) as (_ & He & _).
Qed.

(** C7: when the retained paths parse to tuples no two of which are equal,
    the construction succeeds and writes nothing; [angles_set] holds those
    tuples, as many as there are retained paths, no two equal; the index
    pairs each retained path with its tuple, so that no path is the image of
    two tuples; and a lookup leaves the object as it is. *)
Theorem distinct_conditions_index (zip : string) (z : ZipFile)
  (file_ext angle_sep : string) (ts : list AnglesTuple) :
  Forall2 (fun path t => _filename_to_angles path angle_sep = Return t)
    (set_comprehension (fun path => PyStr.endswith path file_ext) (namelist z)) ts ->
  ForallOrdPairs differ ts ->
  exists self,
    Btfzip_init zip z file_ext angle_sep = ([], Return self)
    /\ angles_set self = ts
    /\ length (angles_set self)
       = length (nodup string_dec
                   (filter (fun path => PyStr.endswith path file_ext) (namelist z)))
    /\ ForallOrdPairs differ (angles_set self)
    /\ _Btfzip__angles_vs_filepath_dict self
       = combine ts (set_comprehension (fun path => PyStr.endswith path file_ext) (namelist z))
    /\ NoDup (map snd (_Btfzip__angles_vs_filepath_dict self))
    /\ (forall k1 k2 path,
           In (k1, path) (_Btfzip__angles_vs_filepath_dict self) ->
           In (k2, path) (_Btfzip__angles_vs_filepath_dict self) -> k1 = k2)
    /\ (forall tl pl tv pv, snd (angles_to_image self tl pl tv pv) = self).
Proof.
  intros Hparse Hdiff.
  set (ps := set_comprehension (fun path => PyStr.endswith path file_ext) (namelist z)) in *.
  pose proof (Forall2_length Hparse) as Hlen.
  assert (Hdict : dict_comprehension call_filename_to_angles angle_sep ps []
                  = Return (combine ts ps)).
  { now apply (dict_comprehension_distinct call_filename_to_angles angle_sep ps ts []). }
  assert (Hkeys : dict_keys (combine ts ps) = ts).
  { apply combine_fst. now symmetry. }
  assert (Hset : frozenset (dict_keys (combine ts ps)) = ts).
  { rewrite Hkeys. now apply (frozenset_distinct ts []). }
  assert (Hnd : NoDup (map snd (combine ts ps))).
  { rewrite combine_snd by now symmetry. apply set_comprehension_NoDup. }
  eexists. split.
  - unfold Btfzip_init, init_with. fold ps. rewrite Hdict.
    cbn [angles_set]. rewrite Hset, Hlen, Nat.eqb_refl. cbn [negb].
    reflexivity.
  - cbn [angles_set _Btfzip__angles_vs_filepath_dict]. repeat split; trivial.
    + rewrite <- Hlen. apply set_comprehension_length.
    + now apply NoDup_values_injective.
    + intros. apply angles_to_image_state.
Qed.

(** C8: for a key that is in the index of a constructed object, the lookup
    reads the bytes of the entry the index names and returns what the codec
    makes of them; a second lookup reads the same bytes and returns the same;
    the object, with its index, its set and its archive, is after each call
    what it was before. *)
Theorem angles_to_image_repeatable (zip : string) (z : ZipFile)
  (file_ext angle_sep : string) (out : list stderr_line) (self : Btfzip)
  (tl pl tv pv : num) (path : string) :
  Btfzip_init zip z file_ext angle_sep = (out, Return self) ->
  dict_get (_Btfzip__angles_vs_filepath_dict self) (tl, pl, tv, pv) = Some path ->
  exists data,
    getinfo z path = Some data
    /\ angles_to_image self tl pl tv pv
       = (imdecode (frombuffer data) (IMREAD_ANYDEPTH + IMREAD_ANYCOLOR), self)
    /\ angles_to_image (snd (angles_to_image self tl pl tv pv)) tl pl tv pv
       = angles_to_image self tl pl tv pv.
Proof.
  intros Hinit Hget.
  destruct (dict_get_In _ _ _ Hget) as [k Hin].
  destruct (init_index_paths _ _ _ _ _ _ Hinit k path Hin) as (Hname & _ & Hne).
  destruct (getinfo_present z path Hname) as [data Hdata].
  exists data. split; [exact Hdata|]. split.
  - apply (angles_to_image_found self tl pl tv pv path data); trivial.
    apply init_with_Return in Hinit as (_ & _ & -> & _). exact Hdata.
  - now rewrite angles_to_image_state.
Qed.

(** When the lengths differ the duplicates are never reported: the parser is
    called without its separator. *)
Lemma init_duplicates_raise (zip : string) (z : ZipFile) (file_ext angle_sep : string)
  (d : dict) :
  let filepath_set :=
    set_comprehension (fun path => PyStr.endswith path file_ext) (namelist z) in
  dict_comprehension call_filename_to_angles angle_sep filepath_set [] = Return d ->
  length filepath_set <> length (frozenset (dict_keys d)) ->
  Btfzip_init zip z file_ext angle_sep = ([], Raise (MissingArgument "sep")).
Proof.
  intros ps Hdict Hlen. unfold Btfzip_init, init_with. fold ps. rewrite Hdict.
  cbn [angles_set]. apply Nat.eqb_neq in Hlen. rewrite Hlen. cbn [negb].
  destruct ps as [|p ps']; [|reflexivity].
  cbn [dict_comprehension] in Hdict. injection Hdict as <-.
  now apply Nat.eqb_neq in Hlen.
Qed.

(** C1: two entries with the same angles.  The construction ends in the
    [TypeError] of the call [_filename_to_angles(path)], which lacks [sep];
    nothing has been written to [stderr], and the [RuntimeError] is not
    raised. *)
Theorem duplicates_raise_TypeError (zip : string) (data1 data2 : list byte) (n : nat) :
  let z := {| filelist := [("tl0 pl0 tv0 pv0.exr", data1); ("a/tl0 pl0 tv0 pv0.exr", data2)];
              open_streams := n |} in
  _filename_to_angles "tl0 pl0 tv0 pv0.exr" " " = Return (0, 0, 0, 0)%float
  /\ _filename_to_angles "a/tl0 pl0 tv0 pv0.exr" " " = Return (0, 0, 0, 0)%float
  /\ Btfzip_init zip z ".exr" " " = ([], Raise (MissingArgument "sep"))
  /\ class_of (MissingArgument "sep") = TypeError.
Proof.
  intros z. repeat split.
  assert (Hset : set_comprehension (fun path => PyStr.endswith path ".exr") (namelist z)
                 = set_iter ["tl0 pl0 tv0 pv0.exr"; "a/tl0 pl0 tv0 pv0.exr"]) by reflexivity.
  destruct (set_iter_two "tl0 pl0 tv0 pv0.exr" "a/tl0 pl0 tv0 pv0.exr") as [Hiter|Hiter];
    [discriminate | rewrite Hiter in Hset ..].
  - apply (init_duplicates_raise zip z ".exr" " "
             [((0, 0, 0, 0)%float, "a/tl0 pl0 tv0 pv0.exr")]); rewrite Hset.
    + vm_compute. reflexivity.
    + vm_compute. discriminate.
  - apply (init_duplicates_raise zip z ".exr" " "
             [((0, 0, 0, 0)%float, "tl0 pl0 tv0 pv0.exr")]); rewrite Hset.
    + vm_compute. reflexivity.
    + vm_compute. discriminate.
Qed.

(** C9: for the archive whose only entry is [tl0 pl0 tv0 pv0.exr], with the
    default extension and separator, [angles_set] is the set of the one
    tuple [(0.0, 0.0, 0.0, 0.0)]; the key of four integers 0 equals that
    tuple, and the lookup with it decodes the bytes of the entry. *)
Theorem single_entry_archive (zip : string) (data : list byte) (n : nat) :
  let z := {| filelist := [("tl0 pl0 tv0 pv0.exr", data)]; open_streams := n |} in
  exists self,
    Btfzip_init zip z default_file_ext default_angle_sep = ([], Return self)
    /\ angles_set self = [(0, 0, 0, 0)%float]
    /\ key_eqb (0, 0, 0, 0)%float (PyInt 0, PyInt 0, PyInt 0, PyInt 0) = true
    /\ dict_get (_Btfzip__angles_vs_filepath_dict self) (PyInt 0, PyInt 0, PyInt 0, PyInt 0)
       = Some "tl0 pl0 tv0 pv0.exr"
    /\ angles_to_image self (PyInt 0) (PyInt 0) (PyInt 0) (PyInt 0)
       = (imdecode (frombuffer data) (IMREAD_ANYDEPTH + IMREAD_ANYCOLOR), self).
Proof.
  intros z.
  assert (Hset : set_comprehension (fun path => PyStr.endswith path default_file_ext)
                   (namelist z)
                 = ["tl0 pl0 tv0 pv0.exr"]).
  { unfold set_comprehension. apply set_iter_one. }
  assert (Hinit : Btfzip_init zip z default_file_ext default_angle_sep
                  = ([], Return {| zip_filepath := zip;
                                   _Btfzip__z := z;
                                   _Btfzip__angles_vs_filepath_dict :=
                                     [((0, 0, 0, 0)%float, "tl0 pl0 tv0 pv0.exr")];
                                   angles_set := [(0, 0, 0, 0)%float] |})).
  { unfold Btfzip_init, init_with. rewrite Hset. vm_compute. reflexivity. }
  eexists. split; [exact Hinit|].
  cbn [angles_set _Btfzip__angles_vs_filepath_dict].
  split; [reflexivity|]. split; [vm_compute; reflexivity|].
  split; [vm_compute; reflexivity|].
  apply (angles_to_image_found _ _ _ _ _ "tl0 pl0 tv0 pv0.exr");
    [vm_compute; reflexivity | discriminate | reflexivity].
Qed.

End Index.

(** ** The theorems at concrete archives *)

Section Examples.

Local Open Scope string_scope.

Lemma filename_to_angles_short_witness :
  _filename_to_angles "tl0 pl0.exr" " " = Raise ListIndexOutOfRange
  /\ class_of ListIndexOutOfRange = IndexError.
Proof.
  destruct (filename_to_angles_short "tl0 pl0.exr" " " ["tl0"; "pl0"]) as [Hall _].
  - vm_compute. reflexivity.
  - simpl. lia.
  - destruct Hall as (Hraise & Hclass & _); [vm_compute; reflexivity|].
    split; assumption.
Defined.


(** The entry [notes.txt] would not parse, and is never parsed. *)
Lemma other_extensions_excluded_witness :
  _filename_to_angles "notes.txt" " " = Raise (InvalidAngle ["notes"] (FloatConversion "tes"))
  /\ @init_with insertion_order (strict_method ".exr") "btf.zip" example_zip ".exr" " "
     = @Btfzip_init insertion_order "btf.zip" example_zip ".exr" " "
  /\ @Btfzip_init insertion_order "btf.zip" example_zip ".exr" " "
     = ([], Return example_btfzip).
Proof.
  split; [vm_compute; reflexivity|].
  destruct (@other_extensions_excluded insertion_order (strict_method ".exr")
              "btf.zip" example_zip ".exr" " ") as [Hsame _].
  - intros path rest Hext. unfold strict_method. rewrite Hext. reflexivity.
  - split; [exact Hsame | vm_compute; reflexivity].
Defined.

Lemma distinct_conditions_index_witness :
  exists self,
    @Btfzip_init insertion_order "btf.zip" example_zip ".exr" " " = ([], Return self)
    /\ angles_set self = [(0, 0, 0, 0)%float; (0, 90, 0, 0)%float]
    /\ length (angles_set self) = 2.
Proof.
  destruct (@distinct_conditions_index insertion_order raw_codec
              "btf.zip" example_zip ".exr" " " [(0, 0, 0, 0)%float; (0, 90, 0, 0)%float])
    as (self & Hinit & Hset & Hlen & _).
  - repeat constructor; vm_compute; reflexivity.
  - repeat constructor; vm_compute; reflexivity.
  - exists self. repeat split; [exact Hinit | exact Hset | now rewrite Hset].
Defined.

Lemma angles_to_image_repeatable_witness :
  exists data,
    getinfo example_zip "b/tl0 pl90 tv0 pv0.exr" = Some data
    /\ @angles_to_image raw_codec example_btfzip (PyInt 0) (PyFloat 90) (PyInt 0) (PyInt 0)
       = (Return (Some data), example_btfzip).
Proof.
  destruct (@angles_to_image_repeatable insertion_order raw_codec
              "btf.zip" example_zip ".exr" " " [] example_btfzip
              (PyInt 0) (PyFloat 90) (PyInt 0) (PyInt 0) "b/tl0 pl90 tv0 pv0.exr")
    as (data & Hdata & Hcall & _).
  - vm_compute. reflexivity.
  - vm_compute. reflexivity.
  - exists data. split; [exact Hdata | exact Hcall].
Defined.

End Examples.

(** ** More on the filename parser *)

Section ParserMore.

Local Open Scope string_scope.

Lemma getitem_last_split_scan (sep cur s : string) (k : nat) :
  exists segment, getitem_last (PyStr.split_scan sep k cur s) = Return segment.
Proof.
  unfold getitem_last.
  destruct (rev (PyStr.split_scan sep k cur s)) as [|a l] eqn:E.
  - exfalso. apply (split_scan_not_nil sep cur s k).
    rewrite <- (rev_involutive (PyStr.split_scan sep k cur s)), E. reflexivity.
  - now exists a.
Qed.

(** Line 75 fails only on an empty separator. *)
Lemma split_angles_Raise (filename sep : string) (e : exn) :
  split_angles filename sep = Raise e -> e = EmptySeparator /\ sep = "".
Proof.
  unfold split_angles, str_split. cbn [PyStr.split bind].
  destruct (getitem_last_split_scan "/" "" filename 0) as [segment ->]. cbn [bind].
  destruct sep; cbn [PyStr.split]; [|discriminate].
  intros [= <-]. now split.
Qed.

Lemma split_angles_in_dir (dir name sep : string) :
  PyStr.has_char "/" name = false ->
  split_angles (dir ++ "/" ++ name) sep = split_angles name sep.
Proof.
  intros Hname. unfold split_angles, str_split. cbn [PyStr.split bind].
  change (dir ++ "/" ++ name) with (dir ++ String "/" name).
  rewrite (split_scan_last "/" dir name "" Hname).
  now rewrite (split_scan_token "/" name "" Hname).
Qed.

(** The directories of a path are ignored: the parser reads the last
    segment only. *)
Theorem filename_to_angles_in_dir (dir name sep : string) :
  PyStr.has_char "/" name = false ->
  _filename_to_angles (dir ++ "/" ++ name) sep = _filename_to_angles name sep.
Proof.
  intros Hname. unfold _filename_to_angles.
  now rewrite (split_angles_in_dir dir name sep Hname).
Qed.

Lemma filename_to_angles_in_dir_witness :
  _filename_to_angles "scan/day 1/tl20.25 pl10 tv11.5 pv0.exr" " "
  = _filename_to_angles "tl20.25 pl10 tv11.5 pv0.exr" " ".
Proof.
  apply (filename_to_angles_in_dir "scan/day 1" "tl20.25 pl10 tv11.5 pv0.exr" " ").
  vm_compute. reflexivity.
Defined.

(** The parser returns a tuple exactly when the stem has four tokens or more
    and each of the first four is a float literal after its first two
    characters: the labels are not compared with [tl], [pl], [tv], [pv], and
    the tokens after the fourth are not read. *)
Theorem filename_to_angles_Return_iff (filename sep : string) (a b c d : float) :
  _filename_to_angles filename sep = Return (a, b, c, d)
  <-> exists t0 t1 t2 t3 rest,
        split_angles filename sep = Return (t0 :: t1 :: t2 :: t3 :: rest)
        /\ PyFloat.float_of_str (PyStr.slice_from 2 t0) = Some a
        /\ PyFloat.float_of_str (PyStr.slice_from 2 t1) = Some b
        /\ PyFloat.float_of_str (PyStr.slice_from 2 t2) = Some c
        /\ PyFloat.float_of_str (PyStr.slice_from 2 t3) = Some d.
Proof.
  unfold _filename_to_angles. split.
  - destruct (split_angles filename sep) as [angles|e]; cbn [bind]; [|discriminate].
    destruct angles as [|t0 [|t1 [|t2 [|t3 rest]]]];
      cbn [getitem nth_error bind]; unfold py_float;
      repeat match goal with
        | |- context [PyFloat.float_of_str (PyStr.slice_from 2 ?x)] =>
            destruct (PyFloat.float_of_str (PyStr.slice_from 2 x)) eqn:?; cbn [bind]
        end;
      cbn [try_except_ValueError is_ValueError class_of]; try discriminate.
    intros [= <- <- <- <-]. now exists t0, t1, t2, t3, rest.
  - intros (t0 & t1 & t2 & t3 & rest & -> & Ha & Hb & Hc & Hd).
    cbn [bind getitem nth_error]. unfold py_float.
    rewrite Ha, Hb, Hc, Hd. reflexivity.
Qed.

(** The parser raises nothing but the [ValueError] of an empty separator,
    the [ValueError] that carries the tokens, and the [IndexError] of a stem
    of fewer than four tokens. *)
Theorem filename_to_angles_Raise (filename sep : string) (e : exn) :
  _filename_to_angles filename sep = Raise e ->
  (e = EmptySeparator /\ sep = "")
  \/ (exists angles cause,
         split_angles filename sep = Return angles /\ e = InvalidAngle angles cause)
  \/ (exists angles,
         split_angles filename sep = Return angles /\ length angles < 4
         /\ e = ListIndexOutOfRange).
Proof.
  unfold _filename_to_angles.
  destruct (split_angles filename sep) as [angles|e0] eqn:Hsplit; cbn [bind].
  - intros Hraise. right.
    destruct angles as [|t0 [|t1 [|t2 [|t3 rest]]]];
      revert Hraise; cbn [getitem nth_error bind]; unfold py_float;
      repeat match goal with
        | |- context [PyFloat.float_of_str (PyStr.slice_from 2 ?x)] =>
            destruct (PyFloat.float_of_str (PyStr.slice_from 2 x)); cbn [bind]
        end;
      cbn [try_except_ValueError is_ValueError class_of]; try discriminate;
      intros [= <-];
      solve [ left; do 2 eexists; split; reflexivity
            | right; eexists; repeat split; simpl; lia ].
  - intros [= <-]. left. now apply split_angles_Raise in Hsplit.
Qed.

Lemma filename_to_angles_Raise_witness :
  (InvalidAngle ["tl0"; "plx"] (FloatConversion "x") = EmptySeparator /\ " " = "")
  \/ (exists angles cause,
         split_angles "tl0 plx.exr" " " = Return angles
         /\ InvalidAngle ["tl0"; "plx"] (FloatConversion "x") = InvalidAngle angles cause)
  \/ (exists angles,
         split_angles "tl0 plx.exr" " " = Return angles /\ length angles < 4
         /\ InvalidAngle ["tl0"; "plx"] (FloatConversion "x") = ListIndexOutOfRange).
Proof.
  apply (filename_to_angles_Raise "tl0 plx.exr" " ").
  vm_compute. reflexivity.
Defined.

(** With an empty separator every filename ends in the [ValueError] of
    [str.split], raised before the handler is entered. *)
Theorem filename_to_angles_empty_sep (filename : string) :
  _filename_to_angles filename "" = Raise EmptySeparator.
Proof.
  unfold _filename_to_angles, split_angles, str_split. cbn [PyStr.split bind].
  destruct (getitem_last_split_scan "/" "" filename 0) as [segment ->].
  reflexivity.
Qed.

Lemma slice_to_neg_short (n : nat) (s : string) :
  String.length s <= n -> PyStr.slice_to_neg n s = "".
Proof.
  intros Hlen. unfold PyStr.slice_to_neg.
  replace (String.length s - n) with 0 by lia. now destruct s.
Qed.

(** A last segment of four characters or fewer leaves an empty stem, whose
    only token is empty: the parser raises the [ValueError] with the token
    list [['']]. *)
Theorem filename_to_angles_short_name (name sep : string) :
  sep <> "" ->
  PyStr.has_char "/" name = false ->
  String.length name <= 4 ->
  _filename_to_angles name sep = Raise (InvalidAngle [""] (FloatConversion "")).
Proof.
  intros Hsep Hname Hlen.
  unfold _filename_to_angles, split_angles, str_split. cbn [PyStr.split bind].
  rewrite (split_scan_token "/" name "" Hname). cbn [append getitem_last rev app bind].
  rewrite (slice_to_neg_short 4 name Hlen).
  destruct sep as [|c sep]; [congruence|].
  vm_compute. reflexivity.
Qed.

Lemma filename_to_angles_short_name_witness :
  _filename_to_angles ".exr" " " = Raise (InvalidAngle [""] (FloatConversion "")).
Proof.
  apply (filename_to_angles_short_name ".exr" " ");
    [discriminate | reflexivity | simpl; lia].
Defined.

(** The pattern with any separator of one character that occurs neither in
    the labels nor in the literals, as [_] in [tl20.25_pl10_tv11.5_pv0.exr]:
    the parser returns the floats of the four literals. *)
Theorem filename_to_angles_pattern_sep
  (c : ascii) (sa sb sc sd ext : string) (a b c' d : float) :
  PyStr.has_char c "tlpv" = false ->
  PyStr.has_char c sa = false -> PyStr.has_char c sb = false ->
  PyStr.has_char c sc = false -> PyStr.has_char c sd = false ->
  PyStr.has_char "/" (angles_filename_sep c sa sb sc sd ext) = false ->
  String.length ext = 4 ->
  PyFloat.float_of_str sa = Some a -> PyFloat.float_of_str sb = Some b ->
  PyFloat.float_of_str sc = Some c' -> PyFloat.float_of_str sd = Some d ->
  _filename_to_angles (angles_filename_sep c sa sb sc sd ext) (String c "")
  = Return (a, b, c', d).
Proof.
  intros Hlabels Ha Hb Hc Hd Hslash Hext Fa Fb Fc Fd.
  cbn [PyStr.has_char] in Hlabels.
  repeat (apply orb_false_iff in Hlabels as [? Hlabels]).
  assert (Hlab : forall x y s, (x =? c)%char = false -> (y =? c)%char = false ->
                   PyStr.has_char c s = false ->
                   PyStr.has_char c (String x (String y s)) = false).
  { intros x y s Hx Hy Hs. cbn [PyStr.has_char]. now rewrite Hx, Hy, Hs. }
  apply filename_to_angles_Return_iff.
  exists ("tl" ++ sa), ("pl" ++ sb), ("tv" ++ sc), ("pv" ++ sd), [].
  cbn [append PyStr.slice_from]. repeat split; trivial.
  unfold split_angles, str_split. cbn [PyStr.split bind].
  rewrite (split_scan_token "/" _ "" Hslash). cbn [append getitem_last rev app bind].
  assert (Hstem : angles_filename_sep c sa sb sc sd ext
                  = (("tl" ++ sa) ++ String c (("pl" ++ sb) ++ String c
                      (("tv" ++ sc) ++ String c ("pv" ++ sd)))) ++ ext).
  { unfold angles_filename_sep. cbn [append].
    repeat (rewrite append_assoc; cbn [append]). reflexivity. }
  rewrite Hstem, (slice_to_neg_ext _ _ Hext).
  cbn [append].
  change (String "t" (String "l" (sa ++ ?r))) with (String "t" (String "l" sa) ++ r).
  rewrite (split_scan_cons c (String "t" (String "l" sa))) by now apply Hlab.
  change (String "p" (String "l" (sb ++ ?r))) with (String "p" (String "l" sb) ++ r).
  rewrite (split_scan_cons c (String "p" (String "l" sb))) by now apply Hlab.
  change (String "t" (String "v" (sc ++ ?r))) with (String "t" (String "v" sc) ++ r).
  rewrite (split_scan_cons c (String "t" (String "v" sc))) by now apply Hlab.
  rewrite (split_scan_token c (String "p" (String "v" sd))) by now apply Hlab.
  reflexivity.
Qed.

Lemma filename_to_angles_pattern_sep_witness :
  _filename_to_angles "tl20.25_pl10_tv11.5_pv0.exr" "_"
  = Return (20.25, 10, 11.5, 0)%float.
Proof.
  apply (filename_to_angles_pattern_sep "_" "20.25" "10" "11.5" "0" ".exr");
    vm_compute; reflexivity.
Defined.

End ParserMore.

(** ** More on the construction *)

Section ConstructionMore.

Context `{PySet}.

Lemma dict_keys_setitem_In (d : dict) (k : AnglesTuple) (v : string) (x : AnglesTuple) :
  In x (dict_keys (dict_setitem d k v)) -> x = k \/ In x (dict_keys d).
Proof.
  unfold dict_keys. induction d as [|[k' v'] d IH]; cbn [dict_setitem map fst].
  - intros [<-|[]]. now left.
  - destruct (tuple_eqb k' k); cbn [map fst]; [now right|].
    intros [<-|Hin]; [right; now left|].
    destruct (IH Hin) as [->|Hd]; [now left | right; now right].
Qed.

(** No key of a dict equals a later one. *)
Lemma dict_setitem_keys_differ (d : dict) (k : AnglesTuple) (v : string) :
  ForallOrdPairs differ (dict_keys d) ->
  ForallOrdPairs differ (dict_keys (dict_setitem d k v)).
Proof.
  induction d as [|[k' v'] d IH]; cbn [dict_setitem]; intros Hfop.
  - repeat constructor.
  - destruct (tuple_eqb k' k) eqn:Hk; [exact Hfop|].
    unfold dict_keys in *. cbn [map fst] in *.
    inversion Hfop as [|? ? Hhead Hrest]; subst. constructor.
    + apply Forall_forall. intros x Hx.
      destruct (dict_keys_setitem_In d k v x Hx) as [->|Hd]; [exact Hk|].
      rewrite Forall_forall in Hhead. now apply Hhead.
    + now apply IH.
Qed.

Lemma dict_setitem_cases (d : dict) (k : AnglesTuple) (v : string) :
  dict_setitem d k v = d ++ [(k, v)] \/ length (dict_setitem d k v) = length d.
Proof.
  induction d as [|[k' v'] d IH]; cbn [dict_setitem]; [now left|].
  destruct (tuple_eqb k' k); [now right|].
  destruct IH as [->|Hlen]; [now left | right; cbn [length]; now rewrite Hlen].
Qed.

Section Method.

Variable method : list string -> result AnglesTuple.

Lemma dict_comprehension_keys_differ (sep : string) (ps : list string) (d0 d : dict) :
  dict_comprehension method sep ps d0 = Return d ->
  ForallOrdPairs differ (dict_keys d0) -> ForallOrdPairs differ (dict_keys d).
Proof.
  revert d0. induction ps as [|p ps IH]; intros d0; cbn [dict_comprehension].
  - now intros [= <-].
  - destruct (method [p; sep]) as [k|e]; cbn [bind]; [|discriminate].
    intros Hrest Hfop. apply (IH _ Hrest). now apply dict_setitem_keys_differ.
Qed.

(** The tuples of the paths, when the comprehension returns *)
Lemma dict_comprehension_Forall2 (sep : string) (ps : list string) (d0 d : dict) :
  dict_comprehension method sep ps d0 = Return d ->
  exists ts, Forall2 (fun p t => method [p; sep] = Return t) ps ts.
Proof.
  revert d0. induction ps as [|p ps IH]; intros d0; cbn [dict_comprehension].
  - intros _. exists []. constructor.
  - destruct (method [p; sep]) as [k|e] eqn:Hp; cbn [bind]; [|discriminate].
    intros Hrest. destruct (IH _ Hrest) as [ts Hts]. exists (k :: ts). now constructor.
Qed.

Lemma dict_comprehension_Return (sep : string) (ps : list string) (ts : list AnglesTuple)
  (d0 : dict) :
  Forall2 (fun p t => method [p; sep] = Return t) ps ts ->
  exists d, dict_comprehension method sep ps d0 = Return d.
Proof.
  intros Hparse. revert d0.
  induction Hparse as [|p t ps ts Hp _ IH]; intros d0; cbn [dict_comprehension].
  - now exists d0.
  - rewrite Hp. cbn [bind]. apply IH.
Qed.

(** The comprehension fails with the exception of the first path that does
    not parse. *)
Lemma dict_comprehension_Raise (sep : string) (ps : list string) (d0 : dict) (e : exn) :
  dict_comprehension method sep ps d0 = Raise e ->
  exists q, In q ps /\ method [q; sep] = Raise e.
Proof.
  revert d0. induction ps as [|p ps IH]; intros d0; cbn [dict_comprehension];
    [discriminate|].
  destruct (method [p; sep]) as [k|e0] eqn:Hp; cbn [bind].
  - intros Hrest. destruct (IH _ Hrest) as (q & Hq & He). exists q. split; [now right | exact He].
  - intros [= <-]. exists p. split; [now left | exact Hp].
Qed.

(** The comprehension fails at the first path that does not parse, with
    the exception of the parser on it. *)
Lemma dict_comprehension_Raise_first (sep : string) (ps : list string) (d0 : dict)
  (e : exn) :
  dict_comprehension method sep ps d0 = Raise e ->
  exists before q after,
    ps = before ++ q :: after
    /\ (forall p, In p before -> exists t, method [p; sep] = Return t)
    /\ method [q; sep] = Raise e.
Proof.
  revert d0. induction ps as [|p ps IH]; intros d0; cbn [dict_comprehension];
    [discriminate|].
  destruct (method [p; sep]) as [k|e0] eqn:Hp; cbn [bind].
  - intros Hrest. destruct (IH _ Hrest) as (before & q & after & -> & Hbefore & He).
    exists (p :: before), q, after. repeat split; trivial.
    intros p' [<-|Hp']; [now exists k | now apply Hbefore].
  - intros [= <-]. exists [], p, ps. repeat split; trivial. intros p' [].
Qed.

(** The dict has an item per path exactly when every path brought a new
    key; it then pairs the paths with their tuples in order. *)
Lemma dict_comprehension_full (sep : string) (ps : list string) (ts : list AnglesTuple)
  (d0 d : dict) :
  Forall2 (fun p t => method [p; sep] = Return t) ps ts ->
  dict_comprehension method sep ps d0 = Return d ->
  length d <= length d0 + length ps
  /\ (length d = length d0 + length ps -> d = d0 ++ combine ts ps).
Proof.
  intros Hparse. revert d0.
  induction Hparse as [|p t ps ts Hp _ IH]; intros d0; cbn [dict_comprehension combine length].
  - intros [= <-]. split; [lia|]. intros _. now rewrite app_nil_r.
  - rewrite Hp. cbn [bind]. intros Hrest.
    destruct (IH _ Hrest) as [Hle Hfull].
    destruct (dict_setitem_cases d0 t p) as [Happ|Hsame].
    + rewrite Happ in Hle, Hfull. rewrite length_app in Hle, Hfull. cbn [length] in Hle, Hfull.
      split; [lia|]. intros Hlen.
      rewrite Hfull by lia. now rewrite <- List.app_assoc.
    + rewrite Hsame in Hle. split; [lia|]. intros Hlen. lia.
Qed.

End Method.

Lemma init_with_Return_length (method : list string -> result AnglesTuple)
  (zip : string) (z : ZipFile) (file_ext angle_sep : string)
  (out : list stderr_line) (self : Btfzip) :
  init_with method zip z file_ext angle_sep = (out, Return self) ->
  length (set_comprehension (fun path => PyStr.endswith path file_ext) (namelist z))
  = length (angles_set self).
Proof.
  unfold init_with.
  destruct (dict_comprehension _ _ _ _) as [d|e]; [|discriminate].
  cbn [angles_set]. destruct (_ =? _)%nat eqn:Hlen; cbn [negb].
  - intros [= _ <-]. cbn [angles_set]. now apply Nat.eqb_eq.
  - destruct (list_comprehension _ _); discriminate.
Qed.

Lemma frozenset_keys (d : dict) :
  ForallOrdPairs differ (dict_keys d) -> frozenset (dict_keys d) = dict_keys d.
Proof. intros Hfop. now apply (frozenset_distinct (dict_keys d) []). Qed.

(** After a construction that succeeds, the index pairs every retained path
    with the tuple its name parses to, in the order of iteration;
    [angles_set] lists these tuples, and none of them equals a later one. *)
Theorem init_index_structure (zip : string) (z : ZipFile) (file_ext angle_sep : string)
  (out : list stderr_line) (self : Btfzip) :
  Btfzip_init zip z file_ext angle_sep = (out, Return self) ->
  exists ts,
    Forall2 (fun path t => _filename_to_angles path angle_sep = Return t)
      (set_comprehension (fun path => PyStr.endswith path file_ext) (namelist z)) ts
    /\ _Btfzip__angles_vs_filepath_dict self
       = combine ts (set_comprehension (fun path => PyStr.endswith path file_ext) (namelist z))
    /\ angles_set self = ts
    /\ ForallOrdPairs differ ts.
Proof.
  intros Hinit. unfold Btfzip_init in Hinit.
  pose proof (init_with_Return_length _ _ _ _ _ _ _ Hinit) as Hlen.
  apply init_with_Return in Hinit as (_ & Hdict & _ & _ & Hset).
  set (ps := set_comprehension (fun path => PyStr.endswith path file_ext) (namelist z)) in *.
  set (d := _Btfzip__angles_vs_filepath_dict self) in *.
  destruct (dict_comprehension_Forall2 _ _ _ _ _ Hdict) as [ts Hts].
  assert (Hdiff : ForallOrdPairs differ (dict_keys d)).
  { apply (dict_comprehension_keys_differ _ _ _ _ _ Hdict). constructor. }
  rewrite (frozenset_keys d Hdiff) in Hset.
  destruct (dict_comprehension_full _ _ _ _ _ _ Hts Hdict) as [_ Hfull].
  assert (Hd : d = combine ts ps).
  { apply Hfull. cbn [length plus]. rewrite Hlen, Hset. unfold dict_keys. now rewrite length_map. }
  assert (Hkeys : dict_keys d = ts).
  { rewrite Hd. apply combine_fst. symmetry. exact (Forall2_length Hts). }
  exists ts. repeat split; trivial.
  - congruence.
  - now rewrite <- Hkeys.
Qed.

(** When every retained path parses, the construction succeeds if no tuple
    equals a later one, and otherwise ends in the [TypeError] of the call
    that lacks [sep]. *)
Theorem init_all_parsed (zip : string) (z : ZipFile) (file_ext angle_sep : string)
  (ts : list AnglesTuple) :
  Forall2 (fun path t => _filename_to_angles path angle_sep = Return t)
    (set_comprehension (fun path => PyStr.endswith path file_ext) (namelist z)) ts ->
  (ForallOrdPairs differ ts
   /\ exists self, Btfzip_init zip z file_ext angle_sep = ([], Return self))
  \/ (~ ForallOrdPairs differ ts
      /\ Btfzip_init zip z file_ext angle_sep = ([], Raise (MissingArgument "sep"))).
Proof.
  intros Hparse.
  set (ps := set_comprehension (fun path => PyStr.endswith path file_ext) (namelist z)) in *.
  destruct (dict_comprehension_Return call_filename_to_angles angle_sep ps ts [] Hparse)
    as [d Hdict].
  assert (Hdiff : ForallOrdPairs differ (dict_keys d)).
  { apply (dict_comprehension_keys_differ _ _ _ _ _ Hdict). constructor. }
  destruct (dict_comprehension_full _ _ _ _ _ _ Hparse Hdict) as [_ Hfull].
  destruct (Nat.eq_dec (length ps) (length (frozenset (dict_keys d)))) as [Heq|Hne].
  - left.
    assert (Hd : d = combine ts ps).
    { apply Hfull. cbn [length plus]. rewrite Heq, (frozenset_keys d Hdiff).
      unfold dict_keys. now rewrite length_map. }
    assert (Hkeys : dict_keys d = ts).
    { rewrite Hd. apply combine_fst. symmetry. exact (Forall2_length Hparse). }
    split; [now rewrite <- Hkeys|].
    eexists. unfold Btfzip_init, init_with. fold ps. rewrite Hdict.
    cbn [angles_set]. apply Nat.eqb_eq in Heq. rewrite Heq. reflexivity.
  - right. split.
    + intros Hts. apply Hne.
      rewrite (dict_comprehension_distinct call_filename_to_angles angle_sep ps ts [])
        in Hdict by trivial.
      injection Hdict as <-. cbn [app]. unfold dict_keys.
      rewrite combine_fst by (symmetry; exact (Forall2_length Hparse)).
      unfold frozenset. rewrite (frozenset_distinct ts []) by exact Hts.
      exact (Forall2_length Hparse).
    + now apply (init_duplicates_raise zip z file_ext angle_sep d).
Qed.

(** The construction writes nothing to [stderr], whatever the archive.  An
    exception it raises is the [TypeError] of the call that lacks [sep], or
    the exception of the parser on an entry with the extension: the
    [RuntimeError] is never raised. *)
Theorem init_outcome (zip : string) (z : ZipFile) (file_ext angle_sep : string) :
  fst (Btfzip_init zip z file_ext angle_sep) = []
  /\ forall e,
       snd (Btfzip_init zip z file_ext angle_sep) = Raise e ->
       class_of e <> RuntimeError
       /\ (e = MissingArgument "sep"
           \/ exists path,
                In path (namelist z) /\ PyStr.endswith path file_ext = true
                /\ _filename_to_angles path angle_sep = Raise e).
Proof.
  set (ps := set_comprehension (fun path => PyStr.endswith path file_ext) (namelist z)).
  destruct (dict_comprehension call_filename_to_angles angle_sep ps []) as [d|e0] eqn:Hdict.
  - destruct (Nat.eq_dec (length ps) (length (frozenset (dict_keys d)))) as [Heq|Hne].
    + assert (Hinit : exists self, Btfzip_init zip z file_ext angle_sep = ([], Return self)).
      { eexists. unfold Btfzip_init, init_with. fold ps. rewrite Hdict.
        cbn [angles_set]. apply Nat.eqb_eq in Heq. rewrite Heq. reflexivity. }
      destruct Hinit as [self ->]. split; [reflexivity|]. intros e [=].
    + rewrite (init_duplicates_raise zip z file_ext angle_sep d Hdict Hne).
      split; [reflexivity|]. intros e [= <-]. split; [discriminate | now left].
  - assert (Hinit : Btfzip_init zip z file_ext angle_sep = ([], Raise e0)).
    { unfold Btfzip_init, init_with. fold ps. now rewrite Hdict. }
    rewrite Hinit. split; [reflexivity|]. intros e [= <-].
    destruct (dict_comprehension_Raise _ _ _ _ _ Hdict) as (q & Hq & He).
    cbn [call_filename_to_angles] in He.
    apply set_comprehension_In in Hq as [Hname Hext].
    split.
    + destruct (filename_to_angles_Raise _ _ _ He)
        as [[-> _]|[(angles & cause & _ & ->)|(angles & _ & _ & ->)]]; discriminate.
    + right. now exists q.
Qed.

(** An entry with the extension whose name does not parse makes the
    construction fail, with the exception of the parser on the first such
    entry in the order of iteration of the set: the paths before it parse. *)
Theorem init_parse_failure (zip : string) (z : ZipFile) (file_ext angle_sep : string)
  (path : string) (e : exn) :
  In path (namelist z) -> PyStr.endswith path file_ext = true ->
  _filename_to_angles path angle_sep = Raise e ->
  exists before path' after e',
    set_comprehension (fun p => PyStr.endswith p file_ext) (namelist z)
    = before ++ path' :: after
    /\ (forall p, In p before -> exists t, _filename_to_angles p angle_sep = Return t)
    /\ In path' (namelist z) /\ PyStr.endswith path' file_ext = true
    /\ _filename_to_angles path' angle_sep = Raise e'
    /\ Btfzip_init zip z file_ext angle_sep = ([], Raise e').
Proof.
  intros Hname Hext Hraise.
  set (ps := set_comprehension (fun p => PyStr.endswith p file_ext) (namelist z)).
  assert (Hin : In path ps) by now apply set_comprehension_In.
  destruct (dict_comprehension call_filename_to_angles angle_sep ps []) as [d|e0] eqn:Hdict.
  - destruct (dict_comprehension_parsed _ _ _ _ _ Hdict path Hin) as [k Hk].
    cbn [call_filename_to_angles] in Hk. congruence.
  - destruct (dict_comprehension_Raise_first _ _ _ _ _ Hdict)
      as (before & q & after & Hps & Hbefore & He).
    cbn [call_filename_to_angles] in He.
    assert (Hq : In q ps) by (rewrite Hps; apply in_elt).
    apply set_comprehension_In in Hq as [Hqname Hqext].
    exists before, q, after, e0. repeat split; trivial.
    unfold Btfzip_init, init_with. fold ps. now rewrite Hdict.
Qed.

(** An archive without an entry of the extension gives an object with an
    empty index and an empty [angles_set]. *)
Theorem init_no_entry (zip : string) (z : ZipFile) (file_ext angle_sep : string) :
  (forall path, In path (namelist z) -> PyStr.endswith path file_ext = false) ->
  Btfzip_init zip z file_ext angle_sep
  = ([], Return {| zip_filepath := zip;
                   _Btfzip__z := z;
                   _Btfzip__angles_vs_filepath_dict := [];
                   angles_set := [] |}).
Proof.
  intros Hnone.
  assert (Hset : set_comprehension (fun path => PyStr.endswith path file_ext) (namelist z) = []).
  { destruct (set_comprehension _ _) as [|p ps] eqn:E; [reflexivity|].
    assert (Hin : In p (set_comprehension (fun path => PyStr.endswith path file_ext)
                          (namelist z))) by (rewrite E; now left).
    apply set_comprehension_In in Hin as [Hname Hext].
    rewrite (Hnone p Hname) in Hext. discriminate. }
  unfold Btfzip_init, init_with. rewrite Hset. reflexivity.
Qed.

End ConstructionMore.

(** ** More on the lookup *)

Section LookupMore.

Context `{PySet} `{Cv2}.

(** Against float objects of the caller's the comparison is [==]. *)
Lemma key_match_as_key (j : nat) (k t : AnglesTuple) :
  key_match j k (as_key t) = tuple_eqb k t.
Proof. destruct k as [[[k1 k2] k3] k4], t as [[[t1 t2] t3] t4]. reflexivity. Qed.

(** In a dict whose keys differ from the later ones, a key that equals
    itself is found under its own value. *)
Lemma dict_get_from_own_value (j0 : nat) (d : dict) (t : AnglesTuple) (path : string) :
  ForallOrdPairs differ (dict_keys d) ->
  In (t, path) d -> tuple_eqb t t = true ->
  dict_get_from j0 d (as_key t) = Some path.
Proof.
  intros Hfop Hin Hrefl. revert j0. induction d as [|[k v] d IH]; intros j0; [destruct Hin|].
  unfold dict_keys in Hfop. cbn [map fst] in Hfop.
  inversion Hfop as [|? ? Hhead Hrest]; subst.
  cbn [dict_get_from]. rewrite key_match_as_key.
  destruct Hin as [[= -> ->]|Hin].
  - now rewrite Hrefl.
  - rewrite Forall_forall in Hhead.
    rewrite (Hhead t (in_map fst _ _ Hin)). now apply IH.
Qed.

Lemma dict_get_own_key (d : dict) (t : AnglesTuple) (path : string) :
  ForallOrdPairs differ (dict_keys d) ->
  In (t, path) d -> tuple_eqb t t = true ->
  dict_get d (as_key t) = Some path.
Proof. apply dict_get_from_own_value. Qed.

Lemma item_match_own (j i : nat) (g : float) : item_match j i g (PyKeyFloat j i g) = true.
Proof.
  unfold item_match, is_object. rewrite !Nat.eqb_refl.
  now rewrite (proj2 (FloatAxioms.Leibniz.eqb_spec g g) eq_refl).
Qed.

Lemma item_match_other (j j' i i' : nat) (g f : float) :
  j <> j' -> item_match j' i' g (PyKeyFloat j i f) = PrimFloat.eqb g f.
Proof.
  intros Hj. unfold item_match, is_object.
  apply Nat.eqb_neq in Hj. now rewrite Hj.
Qed.

Lemma key_match_own (j : nat) (t : AnglesTuple) : key_match j t (own_key j t) = true.
Proof.
  destruct t as [[[t1 t2] t3] t4]. cbn [key_match own_key].
  now rewrite !item_match_own.
Qed.

Lemma key_match_own_other (j j' : nat) (k t : AnglesTuple) :
  j <> j' -> key_match j' k (own_key j t) = tuple_eqb k t.
Proof.
  intros Hj. destruct k as [[[k1 k2] k3] k4], t as [[[t1 t2] t3] t4].
  cbn [key_match own_key tuple_eqb].
  now rewrite !(item_match_other j j' _ _ _ _ Hj).
Qed.

(** In a dict whose keys differ from the later ones, the key made of the
    objects of the key number [j] is found under the value of that key. *)
Lemma dict_get_from_own (j0 : nat) (d : dict) (j : nat) (t : AnglesTuple) (path : string) :
  ForallOrdPairs differ (dict_keys d) ->
  nth_error d j = Some (t, path) ->
  dict_get_from j0 d (own_key (j0 + j) t) = Some path.
Proof.
  revert j0 j. induction d as [|[k v] d IH]; intros j0 j Hfop Hnth;
    [destruct j; discriminate|].
  unfold dict_keys in Hfop. cbn [map fst] in Hfop.
  inversion Hfop as [|? ? Hhead Hrest]; subst.
  cbn [dict_get_from]. destruct j as [|j]; cbn [nth_error] in Hnth.
  - injection Hnth as -> ->. now rewrite Nat.add_0_r, key_match_own.
  - rewrite key_match_own_other by lia.
    rewrite Forall_forall in Hhead.
    rewrite (Hhead t (in_map fst _ _ (nth_error_In _ _ Hnth))).
    rewrite Nat.add_succ_r, <- Nat.add_succ_l. now apply IH.
Qed.

Lemma Forall2_combine_nth {A B : Type} (R : A -> B -> Prop) (la : list A) (lb : list B)
  (j : nat) (b : B) :
  Forall2 R la lb -> nth_error lb j = Some b ->
  exists a, nth_error (combine lb la) j = Some (b, a) /\ R a b.
Proof.
  intros HR. revert j. induction HR as [|a0 b0 la lb Hab _ IH]; intros j Hnth;
    [destruct j; discriminate|].
  destruct j as [|j]; cbn [nth_error combine] in *.
  - injection Hnth as <-. now exists a0.
  - now apply IH.
Qed.

Lemma Forall2_combine_In {A B : Type} (R : A -> B -> Prop) (la : list A) (lb : list B)
  (b : B) :
  Forall2 R la lb -> In b lb -> exists a, In (b, a) (combine lb la) /\ R a b.
Proof.
  intros HR. induction HR as [|a0 b0 la lb Hab _ IH]; intros Hin; [destruct Hin|].
  cbn [combine]. destruct Hin as [<-|Hin].
  - exists a0. split; [now left | exact Hab].
  - destruct (IH Hin) as (a & Ha & HRa). exists a. split; [now right | exact HRa].
Qed.



Lemma dict_get_from_Some_key (j0 : nat) (d : dict) (key : Key) (path : string) :
  dict_get_from j0 d key = Some path ->
  exists j k, nth_error d j = Some (k, path) /\ key_match (j0 + j) k key = true.
Proof.
  revert j0. induction d as [|[k' v'] d IH]; intros j0; cbn [dict_get_from]; [discriminate|].
  destruct (key_match j0 k' key) eqn:Hk.
  - intros [= ->]. exists 0, k'. split; [reflexivity | now rewrite Nat.add_0_r].
  - intros Hget. destruct (IH _ Hget) as (j & k & Hnth & Hkey).
    exists (S j), k. split; [exact Hnth|].
    now rewrite Nat.add_succ_r, <- Nat.add_succ_l.
Qed.

Lemma dict_get_Some_key (d : dict) (key : Key) (path : string) :
  dict_get d key = Some path ->
  exists j k, nth_error d j = Some (k, path) /\ key_match j k key = true.
Proof. apply (dict_get_from_Some_key 0). Qed.



(** A tuple of [angles_set] that equals itself, passed back as
    [angles_to_image( *t)], gives the decoded bytes of an entry whose name
    parses to that very tuple. *)
Theorem angles_set_round_trip (zip : string) (z : ZipFile) (file_ext angle_sep : string)
  (out : list stderr_line) (self : Btfzip) (t1 t2 t3 t4 : float) :
  Btfzip_init zip z file_ext angle_sep = (out, Return self) ->
  In (t1, t2, t3, t4) (angles_set self) ->
  tuple_eqb (t1, t2, t3, t4) (t1, t2, t3, t4) = true ->
  exists path data,
    In path (namelist z)
    /\ _filename_to_angles path angle_sep = Return (t1, t2, t3, t4)
    /\ getinfo z path = Some data
    /\ angles_to_image self (PyFloat t1) (PyFloat t2) (PyFloat t3) (PyFloat t4)
       = (imdecode (frombuffer data) (IMREAD_ANYDEPTH + IMREAD_ANYCOLOR), self).
Proof.
  intros Hinit Hin Hrefl.
  destruct (init_index_structure _ _ _ _ _ _ Hinit) as (ts & Hparse & Hdict & Hset & Hdiff).
  rewrite Hset in Hin.
  destruct (Forall2_combine_In _ _ _ _ Hparse Hin) as (path & Hpair & Hpath).
  rewrite <- Hdict in Hpair.
  destruct (init_index_paths _ _ _ _ _ _ Hinit _ _ Hpair) as (Hname & _ & Hne).
  destruct (getinfo_present z path Hname) as [data Hdata].
  exists path, data. repeat split; trivial.
  apply (angles_to_image_found self _ _ _ _ path data); trivial.
  - apply (dict_get_own_key _ (t1, t2, t3, t4) path); trivial.
    rewrite Hdict. unfold dict_keys.
    rewrite combine_fst by (symmetry; exact (Forall2_length Hparse)). exact Hdiff.
  - apply init_with_Return in Hinit as (_ & _ & -> & _). exact Hdata.
Qed.

(** The member number [j] of [angles_set], passed back as it is in
    [angles_to_image( *t)], gives the decoded bytes of the entry that the index
    holds under the key number [j], whose name parses to that tuple; a NaN
    among its floats is found as the object it is. *)
Theorem angles_set_own_objects (zip : string) (z : ZipFile) (file_ext angle_sep : string)
  (out : list stderr_line) (self : Btfzip) (j : nat) (t1 t2 t3 t4 : float) :
  Btfzip_init zip z file_ext angle_sep = (out, Return self) ->
  nth_error (angles_set self) j = Some (t1, t2, t3, t4) ->
  exists path data,
    nth_error (_Btfzip__angles_vs_filepath_dict self) j = Some ((t1, t2, t3, t4), path)
    /\ In path (namelist z)
    /\ _filename_to_angles path angle_sep = Return (t1, t2, t3, t4)
    /\ getinfo z path = Some data
    /\ angles_to_image self
         (PyKeyFloat j 0 t1) (PyKeyFloat j 1 t2) (PyKeyFloat j 2 t3) (PyKeyFloat j 3 t4)
       = (imdecode (frombuffer data) (IMREAD_ANYDEPTH + IMREAD_ANYCOLOR), self).
Proof.
  intros Hinit Hnth.
  destruct (init_index_structure _ _ _ _ _ _ Hinit) as (ts & Hparse & Hdict & Hset & Hdiff).
  rewrite Hset in Hnth.
  destruct (Forall2_combine_nth _ _ _ _ _ Hparse Hnth) as (path & Hpair & Hpath).
  rewrite <- Hdict in Hpair.
  destruct (init_index_paths _ _ _ _ _ _ Hinit _ _ (nth_error_In _ _ Hpair))
    as (Hname & _ & Hne).
  destruct (getinfo_present z path Hname) as [data Hdata].
  exists path, data. repeat split; trivial.
  apply (angles_to_image_found self _ _ _ _ path data); trivial.
  - apply (dict_get_from_own 0 _ j (t1, t2, t3, t4) path); trivial.
    rewrite Hdict. unfold dict_keys.
    rewrite combine_fst by (symmetry; exact (Forall2_length Hparse)). exact Hdiff.
  - apply init_with_Return in Hinit as (_ & _ & -> & _). exact Hdata.
Qed.


End LookupMore.

(** ** The further theorems at concrete archives *)

Section MoreExamples.

Local Open Scope string_scope.

Lemma init_index_structure_witness :
  exists ts,
    Forall2 (fun path t => _filename_to_angles path " " = Return t)
      (@set_comprehension insertion_order (fun path => PyStr.endswith path ".exr")
         (namelist example_zip)) ts
    /\ _Btfzip__angles_vs_filepath_dict example_btfzip
       = combine ts (@set_comprehension insertion_order
                       (fun path => PyStr.endswith path ".exr") (namelist example_zip))
    /\ angles_set example_btfzip = ts
    /\ ForallOrdPairs differ ts.
Proof.
  apply (@init_index_structure insertion_order "btf.zip" example_zip ".exr" " " []
           example_btfzip).
  vm_compute. reflexivity.
Defined.

Lemma init_all_parsed_witness :
  exists self, @Btfzip_init insertion_order "btf.zip" example_zip ".exr" " " = ([], Return self).
Proof.
  destruct (@init_all_parsed insertion_order "btf.zip" example_zip ".exr" " "
              [(0, 0, 0, 0)%float; (0, 90, 0, 0)%float]) as [[_ Hok]|[_ Hdup]].
  - repeat constructor; vm_compute; reflexivity.
  - exact Hok.
  - vm_compute in Hdup. discriminate Hdup.
Defined.

Lemma init_parse_failure_witness :
  exists before path' after e',
    @set_comprehension insertion_order (fun p => PyStr.endswith p ".exr")
      (namelist failing_zip)
    = (before ++ path' :: after)%list
    /\ (forall p, In p before -> exists t, _filename_to_angles p " " = Return t)
    /\ In path' (namelist failing_zip) /\ PyStr.endswith path' ".exr" = true
    /\ _filename_to_angles path' " " = Raise e'
    /\ @Btfzip_init insertion_order "btf.zip" failing_zip ".exr" " " = ([], Raise e').
Proof.
  apply (@init_parse_failure insertion_order "btf.zip" failing_zip ".exr" " " "tl0.exr"
           ListIndexOutOfRange).
  - simpl. tauto.
  - vm_compute. reflexivity.
  - vm_compute. reflexivity.
Defined.

Lemma init_no_entry_witness :
  @Btfzip_init insertion_order "btf.zip" example_zip ".png" " "
  = ([], Return {| zip_filepath := "btf.zip";
                   _Btfzip__z := example_zip;
                   _Btfzip__angles_vs_filepath_dict := [];
                   angles_set := [] |}).
Proof.
  apply (@init_no_entry insertion_order "btf.zip" example_zip ".png" " ").
  intros path [<-|[<-|[<-|[]]]]; vm_compute; reflexivity.
Defined.

Lemma angles_set_round_trip_witness :
  exists path data,
    In path (namelist example_zip)
    /\ _filename_to_angles path " " = Return (0, 90, 0, 0)%float
    /\ getinfo example_zip path = Some data
    /\ @angles_to_image raw_codec example_btfzip
         (PyFloat 0) (PyFloat 90) (PyFloat 0) (PyFloat 0)
       = (Return (Some data), example_btfzip).
Proof.
  apply (@angles_set_round_trip insertion_order raw_codec "btf.zip" example_zip ".exr" " " []
           example_btfzip 0%float 90%float 0%float 0%float).
  - vm_compute. reflexivity.
  - simpl. tauto.
  - vm_compute. reflexivity.
Defined.

Lemma angles_set_own_objects_witness :
  exists path data,
    nth_error (_Btfzip__angles_vs_filepath_dict nan_btfzip) 0
    = Some ((nan, 0, 0, 0)%float, path)
    /\ In path (namelist nan_zip)
    /\ _filename_to_angles path " " = Return (nan, 0, 0, 0)%float
    /\ getinfo nan_zip path = Some data
    /\ @angles_to_image raw_codec nan_btfzip
         (PyKeyFloat 0 0 nan) (PyKeyFloat 0 1 0) (PyKeyFloat 0 2 0) (PyKeyFloat 0 3 0)
       = (Return (Some data), nan_btfzip).
Proof.
  apply (@angles_set_own_objects insertion_order raw_codec "btf.zip" nan_zip ".exr" " " []
           nan_btfzip 0 nan 0%float 0%float 0%float).
  - vm_compute. reflexivity.
  - reflexivity.
Defined.

(** The same NaN as an object of the caller's is in no key. *)
Lemma fresh_nan_not_found :
  @angles_to_image raw_codec nan_btfzip (PyFloat nan) (PyFloat 0) (PyFloat 0) (PyFloat 0)
  = (Raise (ConditionNotExist (PyFloat nan, PyFloat 0, PyFloat 0, PyFloat 0) "btf.zip"),
     nan_btfzip).
Proof. vm_compute. reflexivity. Qed.


End MoreExamples.
